(** * Task reconciliation of the plant calendar: a shallow embedding

    The development follows [plantCalendar/src/home/TaskData.js] (the class
    [TaskData], which keeps the local array of tasks and writes every change
    through to Google Tasks and to Firestore) and the time bookkeeping of the
    task viewer ([ViewTaskModal.addTimeSpent]).

    Conventions of the embedding:
    - JavaScript values that the code only stores or copies are [jsval]s;
      numbers are IEEE binary64 ([float]), as in the language;
    - a method is a computation over a [world]: the [TaskData] object
      together with the list of remote calls issued so far.  A computation
      either returns or throws; what it had already written stays written;
    - what a remote service answers is an argument of the method that
      awaits it, so every theorem quantifies over all possible answers;
    - the loop counters [i] and [j] that the source leaves undeclared are
      read as ordinary counters. *)

From Stdlib Require Import String Ascii List ZArith Floats.
From stdpp Require Import base option list strings.

Local Open Scope string_scope.
Local Open Scope list_scope.

(** ** JavaScript values *)

Inductive jsval : Type :=
| JUndefined
| JNull
| JBool (b : bool)
| JNum (x : float)
| JStr (s : string)
| JDate (tv : float).   (* a Date object, by its time value; NaN is Invalid Date *)

Inductive error : Type :=
| TypeError        (* property access on undefined, call of a non-function *)
| RangeError       (* Date.prototype.toISOString on an invalid date *)
| Rejection (reason : string).   (* an awaited promise rejected *)

Inductive completion (A : Type) : Type :=
| Return (a : A)
| Throw (e : error).
Arguments Return {A} a.
Arguments Throw {A} e.

(** What an awaited promise settles to. *)
Inductive settled (A : Type) : Type :=
| Resolved (a : A)
| Rejected (reason : string).
Arguments Resolved {A} a.
Arguments Rejected {A} reason.

(** [arr[k] = v] for [k <= arr.length]: an index in range is overwritten and
    the index [arr.length] extends the array by one.  (A store further out
    would leave holes; the program never does one, see [tasks_loop_spec].) *)
Definition store {A : Type} (k : nat) (v : A) (arr : list A) : list A :=
  if decide (k < length arr) then <[k := v]> arr else arr ++ [v].

(** [arr.splice(start, 1)] where [start] is an index or [undefined]:
    [undefined] converts to the integer 0. *)
Definition splice1 {A : Type} (start : option nat) (arr : list A) : list A :=
  delete (default 0 start) arr.

(** ** The answers of the two services *)

(** Google Tasks: the JSON of one task and of one task list. *)
Module G.
Record task : Type := {
  id : string;
  title : string;
  status : string;
  due : option string      (* absent when the task has no due date *)
}.
Record tasklist : Type := { list_id : string }.

(** The outcome of [fetch(url).catch(log)] followed by [.json()]. *)
Inductive response (A : Type) : Type :=
| Failed (reason : string)        (* fetch rejected: the handler logs, yields undefined *)
| Json (items : option (list A)). (* parsed body; [items] may be missing *)
Arguments Failed {A} reason.
Arguments Json {A} items.

Record service : Type := {
  lists : response tasklist;               (* GET users/@me/lists *)
  tasks : string -> response task          (* GET lists/<id>/tasks *)
}.
End G.

(** Firestore: the fields of the document [users/<email>/tasks/<id>]. *)
Module Fb.
Record doc : Type := {
  priority : jsval;
  estTimeToComplete : jsval;
  timeSpent : jsval;
  dueTime : option string   (* absent unless a time of day was saved *)
}.
End Fb.

(** ** The class TaskData *)

Module TaskData.

(** One element of [taskArray].  A property that is absent or [undefined]
    reads as [None] (resp. [JUndefined]). *)
Record task : Type := {
  name : string;
  id : string;
  taskListId : string;
  dueDay : option string;
  priority : jsval;
  estTimeToComplete : jsval;
  timeSpent : jsval;
  dueDateAndTime : jsval
}.

Record t : Type := {
  accessToken : string;
  userEmail : string;
  taskArray : list task;
  initiated : bool
}.

(** The constructor (the two handles hold no state of their own). *)
Definition new (accessToken' userEmail' : string) : t :=
  {| accessToken := accessToken'; userEmail := userEmail';
     taskArray := []; initiated := false |}.

(** Remote calls and log lines, in the order the code issues them. *)
Inductive call : Type :=
| Fetch (url : string) (token : string)
| ConsoleLog (msg : string)
| FirestoreGet (email : string) (taskId : string)
| InitFirebaseTaskData (email taskId : string) (taskName : string)
| UpdateFirebaseTaskData (email taskId : string) (taskName : string)
    (prio est spent : jsval) (completed : bool) (dueDate : jsval)
| SetTaskCompleteInFirebase (email taskId : string) (completed : bool)
| CreateGoogleTask (taskName : string) (dueDate : jsval) (token : string)
| UpdateGoogleTask (taskId taskList : string) (taskName : string)
    (dueDate : jsval) (token : string)
| CompleteGoogleTask (taskId : string) (taskList : jsval) (token : string).

Definition is_firestore_write (c : call) : bool :=
  match c with
  | InitFirebaseTaskData _ _ _ | UpdateFirebaseTaskData _ _ _ _ _ _ _ _
  | SetTaskCompleteInFirebase _ _ _ => true
  | _ => false
  end.

Record world : Type := {
  self : t;
  issued : list call
}.

Definition M (A : Type) : Type := world -> completion A * world.

Definition ret {A : Type} (a : A) : M A := fun w => (Return a, w).
Definition throw {A : Type} (e : error) : M A := fun w => (Throw e, w).
Definition bind {A B : Type} (m : M A) (k : A -> M B) : M B :=
  fun w => match m w with
           | (Return a, w') => k a w'
           | (Throw e, w') => (Throw e, w')
           end.

Notation "'do' x <- m ; k" := (bind m (fun x => k))
  (at level 10, x name, m at level 100, k at level 200).
Notation "m ;; k" := (bind m (fun _ => k))
  (at level 100, k at level 200, right associativity).

Definition this : M t := fun w => (Return (self w), w).
Definition emit (c : call) : M unit :=
  fun w => (Return tt, {| self := self w; issued := issued w ++ [c] |}).
Definition set_taskArray (arr : list task) : M unit :=
  fun w => (Return tt,
            {| self := {| accessToken := accessToken (self w);
                          userEmail := userEmail (self w);
                          taskArray := arr;
                          initiated := initiated (self w) |};
               issued := issued w |}).

(** [await p]: a rejected promise is thrown at the await. *)
Definition await {A : Type} (p : settled A) : M A :=
  match p with
  | Resolved a => ret a
  | Rejected r => throw (Rejection r)
  end.

(** *** getGoogleData *)

Definition lists_url : string :=
  "https://www.googleapis.com/tasks/v1/users/@me/lists".
Definition tasks_url (listId : string) : string :=
  "https://www.googleapis.com/tasks/v1/lists/" +:+ listId +:+ "/tasks".

(** [await fetch(url, ..).catch(log)], [await r.json()] and the read of
    [.items.length]: a failed fetch is logged and leaves [undefined], on
    which [.json()] is a TypeError, and so is [.length] of a missing
    [items]. *)
Definition fetch_items {A : Type} (url : string) (r : G.response A) : M (list A) :=
  do o <- this;
  emit (Fetch url (accessToken o)) ;;
  match r with
  | G.Failed reason =>
      emit (ConsoleLog ("error message: " +:+ reason)) ;; throw TypeError
  | G.Json None => throw TypeError
  | G.Json (Some items) => ret items
  end.

Definition newTask (listId : string) (tk : G.task) : task :=
  {| name := G.title tk;
     id := G.id tk;
     taskListId := listId;
     dueDay := G.due tk;
     priority := JUndefined;
     estTimeToComplete := JUndefined;
     timeSpent := JUndefined;
     dueDateAndTime := JUndefined |}.

(** [task.status != "completed"], negated; both sides are strings. *)
Definition completed (tk : G.task) : bool :=
  bool_decide (G.status tk = "completed").

(** The inner loop, over the tasks of one list; the accumulator is
    [(tempTaskArray, k)]. *)
Fixpoint tasks_loop (listId : string) (items : list G.task)
    (acc : list task * nat) : list task * nat :=
  match items with
  | [] => acc
  | tk :: rest =>
      tasks_loop listId rest
        (if completed tk then acc
         else (store (snd acc) (newTask listId tk) (fst acc), S (snd acc)))
  end.

(** The outer loop, over the task lists. *)
Fixpoint lists_loop (g : G.service) (items : list G.tasklist)
    (acc : list task * nat) : M (list task * nat) :=
  match items with
  | [] => ret acc
  | l :: rest =>
      do taskJson <- fetch_items (tasks_url (G.list_id l)) (G.tasks g (G.list_id l));
      lists_loop g rest (tasks_loop (G.list_id l) taskJson acc)
  end.

Definition getGoogleData (g : G.service) : M unit :=
  do taskListJson <- fetch_items lists_url (G.lists g);
  do acc <- lists_loop g taskListJson ([], 0);
  set_taskArray (fst acc).

(** *** getFirebaseData *)

(** The truth value of [taskFbData.dueTime]: a missing field and the empty
    string are both falsy. *)
Definition truthy (s : option string) : bool :=
  match s with
  | None | Some "" => false
  | Some _ => true
  end.

Definition of_property (s : option string) : jsval :=
  match s with
  | Some v => JStr v
  | None => JUndefined
  end.

(** The body of the second loop on one element, lines 128-141:
    [taskFbData] is [thisTask.data()], which is [undefined] for a document
    that does not exist. *)
Definition merge (tk : task) (taskFbData : option Fb.doc) : completion task :=
  match taskFbData with
  | None => Throw TypeError                      (* undefined.dueTime *)
  | Some d =>
      let merged :=
        if truthy (Fb.dueTime d) then
          match dueDay tk with
          | None => Throw TypeError              (* undefined.substring *)
          | Some day =>
              let dueDate := substring 0 10 day in
              Return (JStr (dueDate +:+ default "" (Fb.dueTime d)))
          end
        else Return (of_property (dueDay tk)) in
      match merged with
      | Throw e => Throw e
      | Return dueDateAndTime' =>
          Return {| name := name tk;
                    id := id tk;
                    taskListId := taskListId tk;
                    dueDay := None;                            (* delete *)
                    priority := Fb.priority d;
                    estTimeToComplete := Fb.estTimeToComplete d;
                    timeSpent := Fb.timeSpent d;
                    dueDateAndTime := dueDateAndTime' |}
      end
  end.

Definition lift {A : Type} (c : completion A) : M A := fun w => (c, w).

(** The first loop: one (not awaited) [initFirebaseTaskData] per element. *)
Fixpoint init_loop (email : string) (arr : list task) : M unit :=
  match arr with
  | [] => ret tt
  | tk :: rest =>
      emit (InitFirebaseTaskData email (id tk) (name tk)) ;;
      init_loop email rest
  end.

(** The second loop, [for (let i = 0; i < this.taskArray.length; ++i)],
    entered at index [i] with [fuel] iterations allowed; [fb] is what
    [taskRef.get()] settles to for each document id. *)
Fixpoint merge_loop (fb : string -> settled (option Fb.doc)) (fuel i : nat) : M unit :=
  match fuel with
  | 0 => ret tt
  | S fuel' =>
      do o <- this;
      match taskArray o !! i with
      | None => ret tt
      | Some tk =>
          emit (FirestoreGet (userEmail o) (id tk)) ;;
          do thisTask <- await (fb (id tk));
          do tk' <- lift (merge tk thisTask);
          set_taskArray (<[i := tk']> (taskArray o)) ;;
          merge_loop fb fuel' (S i)
      end
  end.

Definition getFirebaseData (fb : string -> settled (option Fb.doc)) : M unit :=
  do o <- this;
  init_loop (userEmail o) (taskArray o) ;;
  merge_loop fb (length (taskArray o)) 0.

(** *** initiate *)

Definition initiate (g : G.service) (fb : string -> settled (option Fb.doc))
    : M (list task) :=
  getGoogleData g ;;
  getFirebaseData fb ;;
  do o <- this;
  ret (taskArray o).

(** *** createTask; [reply] is what [createGoogleTask] settles to *)

Definition createTask (reply : settled string)
    (name' : string) (dueDate priority' estTimeToComplete' : jsval) : M unit :=
  do o <- this;
  emit (CreateGoogleTask name' dueDate (accessToken o)) ;;
  do taskId <- await reply;
  emit (InitFirebaseTaskData (userEmail o) taskId name') ;;
  emit (UpdateFirebaseTaskData (userEmail o) taskId name'
          priority' estTimeToComplete' (JNum 0) false dueDate) ;;
  let newTask :=
    {| name := name';
       id := taskId;
       taskListId := "@default";
       dueDay := None;
       priority := priority';
       estTimeToComplete := estTimeToComplete';
       timeSpent := JNum 0;
       dueDateAndTime := dueDate |} in
  do o' <- this;
  set_taskArray (store (length (taskArray o')) newTask (taskArray o')).

(** *** findTask *)

(** The scan [for (i = 0; i < length; ++i) if (arr[i].id == taskId) return i],
    on the part of the array that starts at index [i]. *)
Fixpoint scan (taskId : string) (arr : list task) (i : nat) : option nat :=
  match arr with
  | [] => None
  | tk :: rest =>
      if bool_decide (id tk = taskId) then Some i else scan taskId rest (S i)
  end.

(** [None] is the [undefined] that falls out of the function after the log. *)
Definition findTask (taskId : string) : M (option nat) :=
  do o <- this;
  match scan taskId (taskArray o) 0 with
  | Some i => ret (Some i)
  | None => emit (ConsoleLog "Error: Did not find task") ;; ret None
  end.

(** *** updateTask *)

(** [this.taskArray[i].field = v]: with [i] undefined or out of range
    [this.taskArray[i]] is undefined and the assignment is a TypeError. *)
Definition assign (i : option nat) (f : task -> task) : M unit :=
  do o <- this;
  match i ≫= fun n => taskArray o !! n with
  | None => throw TypeError
  | Some tk => set_taskArray (<[default 0 i := f tk]> (taskArray o))
  end.

Definition with_name (v : string) (tk : task) : task :=
  {| name := v; id := id tk; taskListId := taskListId tk; dueDay := dueDay tk;
     priority := priority tk; estTimeToComplete := estTimeToComplete tk;
     timeSpent := timeSpent tk; dueDateAndTime := dueDateAndTime tk |}.
Definition with_dueDateAndTime (v : jsval) (tk : task) : task :=
  {| name := name tk; id := id tk; taskListId := taskListId tk; dueDay := dueDay tk;
     priority := priority tk; estTimeToComplete := estTimeToComplete tk;
     timeSpent := timeSpent tk; dueDateAndTime := v |}.
Definition with_priority (v : jsval) (tk : task) : task :=
  {| name := name tk; id := id tk; taskListId := taskListId tk; dueDay := dueDay tk;
     priority := v; estTimeToComplete := estTimeToComplete tk;
     timeSpent := timeSpent tk; dueDateAndTime := dueDateAndTime tk |}.
Definition with_estTimeToComplete (v : jsval) (tk : task) : task :=
  {| name := name tk; id := id tk; taskListId := taskListId tk; dueDay := dueDay tk;
     priority := priority tk; estTimeToComplete := v;
     timeSpent := timeSpent tk; dueDateAndTime := dueDateAndTime tk |}.
Definition with_timeSpent (v : jsval) (tk : task) : task :=
  {| name := name tk; id := id tk; taskListId := taskListId tk; dueDay := dueDay tk;
     priority := priority tk; estTimeToComplete := estTimeToComplete tk;
     timeSpent := v; dueDateAndTime := dueDateAndTime tk |}.

Section UpdateTask.
(** [Date.prototype.toISOString] on a valid time value; the format itself
    plays no role here. *)
Variable isoString : float -> string.

(** [dueDate.toISOString()] *)
Definition toISOString (dueDate : jsval) : completion string :=
  match dueDate with
  | JDate tv => if PrimFloat.is_nan tv then Throw RangeError
                else Return (isoString tv)
  | _ => Throw TypeError
  end.

(** [reply] is what [updateGoogleTask] settles to. *)
Definition updateTask (reply : settled string)
    (taskId taskListId' : string) (name' : string)
    (dueDate priority' estTimeToComplete' timeSpent' : jsval) : M unit :=
  do o <- this;
  emit (UpdateGoogleTask taskId taskListId' name' dueDate (accessToken o)) ;;
  do taskId <- await reply;
  emit (UpdateFirebaseTaskData (userEmail o) taskId name'
          priority' estTimeToComplete' timeSpent' false dueDate) ;;
  do i <- findTask taskId;
  assign i (with_name name') ;;
  do iso <- lift (toISOString dueDate);
  assign i (with_dueDateAndTime (JStr iso)) ;;
  assign i (with_priority priority') ;;
  assign i (with_estTimeToComplete estTimeToComplete') ;;
  assign i (with_timeSpent timeSpent').
End UpdateTask.

(** *** completeTask *)

Definition completeTask (taskId : string) : M unit :=
  do o <- this;
  emit (SetTaskCompleteInFirebase (userEmail o) taskId true) ;;
  emit (CompleteGoogleTask taskId JUndefined (accessToken o)) ;;
  do i <- findTask taskId;
  do o' <- this;
  set_taskArray (splice1 i (taskArray o')).

Definition getData : M (list task) :=
  do o <- this;
  ret (taskArray o).

(** *** Vocabulary of the statements *)

(** The tasks the service reports for one list, paired with the id of the
    list, and all of them in the order of the two loops. *)
Definition reported_in (g : G.service) (l : G.tasklist) : list (string * G.task) :=
  match G.tasks g (G.list_id l) with
  | G.Json (Some ts) => pair (G.list_id l) <$> ts
  | _ => []
  end.

Definition reported (g : G.service) : list (string * G.task) :=
  match G.lists g with
  | G.Json (Some ls) => ls ≫= reported_in g
  | _ => []
  end.

Definition is_open (p : string * G.task) : Prop := completed p.2 = false.

(** The partial records of the open tasks. *)
Definition record_of (p : string * G.task) : task := newTask p.1 p.2.

Definition open_records (g : G.service) : list task :=
  record_of <$> filter is_open (reported g).

(** Both kinds of fetch answered with a list of items. *)
Definition answered (g : G.service) : Prop :=
  exists ls, G.lists g = G.Json (Some ls) /\
    forall l, l ∈ ls -> exists ts, G.tasks g (G.list_id l) = G.Json (Some ts).

(** [tk'] is what the second loop of [getFirebaseData] makes of [tk]: the
    document of [tk] was read and merged without a throw. *)
Definition enriched (fb : string -> settled (option Fb.doc)) (tk tk' : task) : Prop :=
  exists d, fb (id tk) = Resolved (Some d) /\ merge tk (Some d) = Return tk'.

(** The loop body goes through on [tk]: its document is read, and a time of
    day is only spliced onto a due day that is there. *)
Definition readable (fb : string -> settled (option Fb.doc)) (tk : task) : Prop :=
  exists d, fb (id tk) = Resolved (Some d) /\
            (truthy (Fb.dueTime d) = true -> is_Some (dueDay tk)).

(** ... or the loop threw before it reached [tk]. *)
Definition touched (fb : string -> settled (option Fb.doc)) (tk tk' : task) : Prop :=
  tk' = tk \/ enriched fb tk tk'.

(** The due date of [tk'] is the one the claim on the merge describes, for
    the record [tk] and its document [doc]: the first ten characters of the
    due day followed by the time of day when there is a (non-empty) time of
    day, the due day as it was when there is none; [dueDay] is gone. *)
Definition due_merged (doc : Fb.doc) (tk tk' : task) : Prop :=
  dueDay tk' = None /\
  (forall time, Fb.dueTime doc = Some time -> time <> "" ->
     exists day, dueDay tk = Some day /\
       dueDateAndTime tk' = JStr (substring 0 10 day +:+ time)) /\
  (Fb.dueTime doc = None \/ Fb.dueTime doc = Some "" ->
     dueDateAndTime tk' = of_property (dueDay tk)).

(** A record as [getGoogleData] leaves it: nothing from Firestore yet. *)
Definition partial (tk : task) : Prop :=
  priority tk = JUndefined /\ estTimeToComplete tk = JUndefined /\
  timeSpent tk = JUndefined /\ dueDateAndTime tk = JUndefined.

Definition reported_ids (g : G.service) : list string :=
  (fun p => G.id p.2) <$> reported g.

Definition ids (arr : list task) : list string := id <$> arr.

(** A computation that leaves the ids of the records, and their order, as
    they are, however it ends. *)
Definition keeps_ids {A : Type} (m : M A) : Prop :=
  forall w c w', m w = (c, w') ->
    ids (taskArray (self w')) = ids (taskArray (self w)).

(** The invariant of the data model: no two local records share an id. *)
Definition unique_ids (w : world) : Prop := NoDup (ids (taskArray (self w))).

(** A call that only reads from Google Tasks, or a log line. *)
Definition is_google_read (c : call) : bool :=
  match c with
  | Fetch _ _ | ConsoleLog _ => true
  | _ => false
  end.

(** The fetch of the tasks of one list. *)
Definition fetch_of (token : string) (l : G.tasklist) : call :=
  Fetch (tasks_url (G.list_id l)) token.

(** The fields of the object other than [taskArray] are the same. *)
Definition same_session (o o' : t) : Prop :=
  accessToken o' = accessToken o /\ userEmail o' = userEmail o /\
  initiated o' = initiated o.

(** A computation that leaves these fields as they are, however it ends. *)
Definition keeps_session {A : Type} (m : M A) : Prop :=
  forall w c w', m w = (c, w') -> same_session (self w) (self w').


End TaskData.

(** ** The task viewer: addTimeSpent *)

Module ViewTaskModal.

Local Open Scope float_scope.

(** [this.props.route.params]: the task shown and the user. *)
Record task : Type := {
  id : string;
  estTimeToComplete : jsval;
  timeSpent : jsval;
  timeLeft : jsval
}.
Record params : Type := {
  task_of : task;
  userEmail : string
}.

Record state : Type := {
  completeTaskAnimationTime : float;
  inputTimeSpent : jsval;        (* the number 0, or the text typed *)
  displayTimeSpent : jsval;
  displayTimeLeft : jsval
}.

Inductive call : Type :=
| UpdateTimeSpentInFirebase (email taskId : string) (newTimeSpent : float).

Section ParseFloat.
(** The global [parseFloat] on a string: the number its longest decimal
    prefix denotes, or NaN.  The grammar plays no role here. *)
Variable parseFloat_string : string -> float.

(** [parseFloat(v)] parses [String(v)].  A number prints to a string that
    parses back to it, but for [-0], which prints as ["0"]; the other
    non-strings print to text that starts with no digit. *)
Definition parseFloat (v : jsval) : float :=
  match v with
  | JStr s => parseFloat_string s
  | JNum x => if PrimFloat.is_zero x then 0 else x
  | JUndefined | JNull | JBool _ | JDate _ => nan
  end.

(** The method (lines 36-55); the state update given to [setState] is
    applied at once. *)
Definition addTimeSpent (p : params) (st : state) : state * list call :=
  let task := task_of p in
  let newTimeSpent :=
    parseFloat (timeSpent task) + parseFloat (inputTimeSpent st) in
  let newTimeLeft :=
    parseFloat (estTimeToComplete task) - parseFloat (JNum newTimeSpent) in
  let newTimeLeft := if newTimeLeft <? 0 then 0 else newTimeLeft in
  ({| completeTaskAnimationTime := completeTaskAnimationTime st;
      inputTimeSpent := JNum 0;
      displayTimeSpent := JNum newTimeSpent;
      displayTimeLeft := JNum newTimeLeft |},
   [UpdateTimeSpentInFirebase (userEmail p) (id task) newTimeSpent]).
End ParseFloat.

(** [onChangeText] of the input box: the text typed becomes
    [inputTimeSpent] (lines 112-114). *)
Definition onChangeText (time : string) (st : state) : state :=
  {| completeTaskAnimationTime := completeTaskAnimationTime st;
     inputTimeSpent := JStr time;
     displayTimeSpent := displayTimeSpent st;
     displayTimeLeft := displayTimeLeft st |}.

(** [dispTime] of [render] (line 64), [task.estTimeToComplete != null]: the
    three time lines and the input box are rendered only when it holds. *)
Definition dispTime (tk : task) : bool :=
  match estTimeToComplete tk with
  | JNull | JUndefined => false
  | _ => true
  end.

End ViewTaskModal.

(** ** Sample data *)

Module Sample.
Import TaskData.

Definition me : t :=
  {| accessToken := "token"; userEmail := "ada@example.org";
     taskArray := []; initiated := false |}.
Definition w0 : world := {| self := me; issued := [] |}.

Definition water : G.task :=
  {| G.id := "t1"; G.title := "water the fern"; G.status := "needsAction";
     G.due := Some "2022-04-05T00:00:00.000Z" |}.
Definition repot : G.task :=
  {| G.id := "t2"; G.title := "repot the ficus"; G.status := "completed";
     G.due := None |}.
Definition google : G.service :=
  {| G.lists := G.Json (Some [ {| G.list_id := "L1" |} ]);
     G.tasks := fun _ => G.Json (Some [water; repot]) |}.

(** After [getGoogleData]: the one open task, date only. *)
Definition fern : task :=
  {| name := "water the fern"; id := "t1"; taskListId := "L1";
     dueDay := Some "2022-04-05";
     priority := JUndefined; estTimeToComplete := JUndefined;
     timeSpent := JUndefined; dueDateAndTime := JUndefined |}.
Definition w1 : world :=
  {| self := {| accessToken := "token"; userEmail := "ada@example.org";
                taskArray := [fern]; initiated := false |};
     issued := [] |}.
(** After [getFirebaseData]. *)
Definition fern' : task :=
  {| name := "water the fern"; id := "t1"; taskListId := "L1";
     dueDay := None;
     priority := JStr "high"; estTimeToComplete := JNum 10;
     timeSpent := JNum 4; dueDateAndTime := JStr "2022-04-05T17:23:42" |}.
Definition w2 : world :=
  {| self := {| accessToken := "token"; userEmail := "ada@example.org";
                taskArray := [fern']; initiated := false |};
     issued := [] |}.
Definition iso (tv : float) : string := "2022-04-06T09:00:00.000Z".
Definition firestore (taskId : string) : settled (option Fb.doc) :=
  Resolved (Some {| Fb.priority := JStr "high";
                    Fb.estTimeToComplete := JNum 10;
                    Fb.timeSpent := JNum 4;
                    Fb.dueTime := Some "T17:23:42" |}).
End Sample.

Module Sample2.
Import TaskData.

(** A service that cannot be reached. *)
Definition offline : G.service :=
  {| G.lists := G.Failed "TypeError: Network request failed";
     G.tasks := fun _ => G.Failed "TypeError: Network request failed" |}.

(** Two open tasks; the second has no due date. *)
Definition ficus : task :=
  {| name := "repot the ficus"; id := "t2"; taskListId := "L1";
     dueDay := None;
     priority := JUndefined; estTimeToComplete := JUndefined;
     timeSpent := JUndefined; dueDateAndTime := JUndefined |}.
Definition w3 : world :=
  {| self := {| accessToken := "token"; userEmail := "ada@example.org";
                taskArray := [Sample.fern; ficus]; initiated := false |};
     issued := [] |}.

(** Firestore has a document with a time of day for "t1" and none for the
    other ids. *)
Definition firestore_t1 (taskId : string) : settled (option Fb.doc) :=
  if bool_decide (taskId = "t1") then Sample.firestore taskId else Resolved None.

Definition doc_t1 : Fb.doc :=
  {| Fb.priority := JStr "high"; Fb.estTimeToComplete := JNum 10;
     Fb.timeSpent := JNum 4; Fb.dueTime := Some "T17:23:42" |}.

(** Documents without a time of day. *)
Definition firestore_plain (taskId : string) : settled (option Fb.doc) :=
  Resolved (Some {| Fb.priority := JStr "low";
                    Fb.estTimeToComplete := JNull;
                    Fb.timeSpent := JNum 0;
                    Fb.dueTime := None |}).

(** After [getFirebaseData]: two enriched records. *)
Definition ficus' : task :=
  {| name := "repot the ficus"; id := "t2"; taskListId := "L1";
     dueDay := None;
     priority := JStr "low"; estTimeToComplete := JNull;
     timeSpent := JNum 0; dueDateAndTime := JUndefined |}.
Definition w4 : world :=
  {| self := {| accessToken := "token"; userEmail := "ada@example.org";
                taskArray := [Sample.fern'; ficus']; initiated := false |};
     issued := [] |}.
End Sample2.

Module Sample3.
Import TaskData.

(** The open task as [getGoogleData] records it, with the timestamp Google
    Tasks sends as due day, and a document whose time of day is the empty
    string. *)
Definition w5 : world :=
  {| self := {| accessToken := "token"; userEmail := "ada@example.org";
                taskArray := [newTask "L1" Sample.water]; initiated := false |};
     issued := [] |}.
Definition firestore_empty_time (taskId : string) : settled (option Fb.doc) :=
  Resolved (Some {| Fb.priority := JStr "high";
                    Fb.estTimeToComplete := JNum 10;
                    Fb.timeSpent := JNum 4;
                    Fb.dueTime := Some "" |}).

(** The viewer opened on a task with 4 of 10 hours spent. *)
Definition shown : ViewTaskModal.params :=
  {| ViewTaskModal.task_of :=
       {| ViewTaskModal.id := "t1";
          ViewTaskModal.estTimeToComplete := JNum 10;
          ViewTaskModal.timeSpent := JNum 4;
          ViewTaskModal.timeLeft := JNum 6 |};
     ViewTaskModal.userEmail := "ada@example.org" |}.
Definition opened : ViewTaskModal.state :=
  {| ViewTaskModal.completeTaskAnimationTime := 300;
     ViewTaskModal.inputTimeSpent := JNum 0;
     ViewTaskModal.displayTimeSpent := JNum 4;
     ViewTaskModal.displayTimeLeft := JNum 6 |}.
(** [parseFloat] on the two texts typed. *)
Definition parse (text : string) : float :=
  if bool_decide (text = "7") then 7
  else if bool_decide (text = "3") then 3 else nan.
End Sample3.

(** * Properties of TaskData *)

Module TaskDataProofs.
Import TaskData.

(** ** getGoogleData *)

Lemma store_at_length {A : Type} (v : A) (arr : list A) :
  store (length arr) v arr = arr ++ [v].
Proof. unfold store. case_decide; [lia | reflexivity]. Qed.

(** The inner loop appends, in order, the records of the open tasks; the
    counter [k] stays equal to the length of [tempTaskArray]. *)
Lemma tasks_loop_spec listId items temp :
  tasks_loop listId items (temp, length temp) =
  (temp ++ (newTask listId <$> filter (fun tk => completed tk = false) items),
   length (temp ++ (newTask listId <$> filter (fun tk => completed tk = false) items))).
Proof.
  revert temp. induction items as [|tk items IH]; intros temp; simpl.
  - by rewrite app_nil_r.
  - destruct (completed tk) eqn:E; simpl.
    + rewrite filter_cons_False by congruence. apply IH.
    + rewrite filter_cons_True by done. rewrite store_at_length.
      replace (S (length temp)) with (length (temp ++ [newTask listId tk])).
      * rewrite IH. simpl. by rewrite <- app_assoc.
      * rewrite length_app. simpl. lia.
Qed.

Lemma open_records_in listId (ts : list G.task) :
  record_of <$> filter is_open (pair listId <$> ts) =
  newTask listId <$> filter (fun tk => completed tk = false) ts.
Proof.
  induction ts as [|tk ts IH]; [done|]. rewrite fmap_cons.
  destruct (completed tk) eqn:E.
  - rewrite !filter_cons_False; [done | congruence | unfold is_open; simpl; congruence].
  - rewrite !filter_cons_True by done. rewrite !fmap_cons, IH. done.
Qed.

(** Running a computation never touches the fields other than [taskArray],
    and fetching touches none. *)
Lemma fetch_items_self {A : Type} url (r : G.response A) w c w' :
  fetch_items url r w = (c, w') -> self w' = self w.
Proof.
  unfold fetch_items, bind, this, emit, throw, ret.
  destruct r as [reason|[items|]]; simpl; intros [= <- <-]; done.
Qed.

Lemma fetch_items_answered {A : Type} url (items : list A) w :
  exists w', fetch_items url (G.Json (Some items)) w = (Return items, w') /\
             self w' = self w.
Proof. eexists. split; reflexivity. Qed.

Lemma lists_loop_self g items acc w c w' :
  lists_loop g items acc w = (c, w') -> self w' = self w.
Proof.
  revert acc w. induction items as [|l items IH]; intros acc w; simpl.
  - intros [= <- <-]. done.
  - unfold bind at 1.
    destruct (fetch_items _ _ w) as [[ts|e] w1] eqn:F;
      apply fetch_items_self in F.
    + intros H. apply IH in H. congruence.
    + intros [= <- <-]. done.
Qed.

(** With every per-list fetch answered, the outer loop returns and has
    appended the open records of all the lists, in order. *)
Lemma lists_loop_spec g (items : list G.tasklist) temp w :
  (forall l, l ∈ items -> exists ts, G.tasks g (G.list_id l) = G.Json (Some ts)) ->
  exists w',
    lists_loop g items (temp, length temp) w =
      (Return (temp ++ (record_of <$> filter is_open (items ≫= reported_in g)),
               length (temp ++ (record_of <$> filter is_open (items ≫= reported_in g)))),
       w') /\
    self w' = self w.
Proof.
  revert temp w. induction items as [|l items IH]; intros temp w Hans.
  - exists w. simpl. rewrite app_nil_r. done.
  - destruct (Hans l) as [ts Hts]; [left|].
    cbn [lists_loop]. rewrite Hts. unfold bind at 1.
    destruct (fetch_items_answered (tasks_url (G.list_id l)) ts w) as (w1 & -> & Hw1).
    rewrite tasks_loop_spec.
    destruct (IH (temp ++ (newTask (G.list_id l) <$>
                filter (fun tk => completed tk = false) ts)) w1) as (w2 & -> & Hw2).
    { intros l' Hl'. apply Hans. by right. }
    exists w2. split; [|congruence].
    assert (reported_in g l = pair (G.list_id l) <$> ts) as Hr
      by (unfold reported_in; rewrite Hts; done).
    rewrite bind_cons, filter_app, fmap_app, Hr, open_records_in, <- !app_assoc.
    done.
Qed.

Lemma getGoogleData_answered g w :
  answered g ->
  exists w', getGoogleData g w = (Return tt, w') /\
             taskArray (self w') = open_records g.
Proof.
  intros (ls & Hls & Hans). unfold getGoogleData, open_records, reported.
  rewrite Hls. unfold bind at 1.
  destruct (fetch_items_answered lists_url ls w) as (w1 & -> & Hw1).
  unfold bind at 1.
  destruct (lists_loop_spec g ls [] w1 Hans) as (w2 & H2 & Hw2).
  change (@length task []) with 0 in H2. rewrite H2.
  eexists. split; [reflexivity|]. done.
Qed.

Lemma lists_loop_returns g (items : list G.tasklist) acc w acc' w' :
  lists_loop g items acc w = (Return acc', w') ->
  forall l, l ∈ items -> exists ts, G.tasks g (G.list_id l) = G.Json (Some ts).
Proof.
  revert acc w. induction items as [|l items IH]; intros acc w H l' Hl'.
  - by apply elem_of_nil in Hl'.
  - cbn [lists_loop] in H. unfold bind at 1 in H.
    destruct (G.tasks g (G.list_id l)) as [reason|[ts|]] eqn:Hts;
      try (cbv in H; discriminate).
    apply elem_of_cons in Hl' as [->|Hl']; [eauto|].
    destruct (fetch_items _ _ w) as [[ts'|e] w1]; [|discriminate].
    eapply IH; eauto.
Qed.

(** Either every fetch was answered, and [taskArray] is replaced by the open
    records, or the method throws and the object is as it was. *)
Lemma getGoogleData_outcome g w c w' :
  getGoogleData g w = (c, w') ->
  (c = Return tt /\ answered g /\ taskArray (self w') = open_records g) \/
  ((exists e, c = Throw e) /\ self w' = self w).
Proof.
  unfold getGoogleData. unfold bind at 1.
  destruct (fetch_items lists_url (G.lists g) w) as [[ls|e] w1] eqn:F.
  - assert (G.lists g = G.Json (Some ls)) as Hls.
    { destruct (G.lists g) as [reason|[ls'|]]; cbv in F; congruence. }
    apply fetch_items_self in F. unfold bind at 1.
    destruct (lists_loop g ls ([], 0) w1) as [[acc|e] w2] eqn:L.
    + assert (answered g) as Hans.
      { exists ls. split; [done|]. eapply lists_loop_returns; eauto. }
      destruct Hans as (ls0 & Hls0 & Hans0).
      assert (ls0 = ls) as -> by congruence.
      destruct (lists_loop_spec g ls [] w1 Hans0) as (w3 & H3 & _).
      change (@length task []) with 0 in H3. rewrite L in H3.
      injection H3 as -> ->.
      intros [= <- <-]. left. split; [done|]. split.
      * exists ls. done.
      * unfold open_records, reported. rewrite Hls. done.
    + intros [= <- <-]. right. split; [eauto|].
      apply lists_loop_self in L. congruence.
  - intros [= <- <-]. right. split; [eauto|]. by apply fetch_items_self in F.
Qed.

(** ** getFirebaseData *)

Lemma init_loop_self email (arr : list task) w :
  exists w', init_loop email arr w = (Return tt, w') /\ self w' = self w.
Proof.
  revert w. induction arr as [|tk arr IH]; intros w; simpl.
  - by exists w.
  - unfold bind, emit. simpl.
    destruct (IH {| self := self w;
                    issued := issued w ++ [InitFirebaseTaskData email (id tk) (name tk)] |})
      as (w' & -> & Hw').
    by exists w'.
Qed.

(** What [merge] returns: the identity of the record is kept, [dueDay] is
    deleted and the four other fields are written. *)
Lemma merge_Return tk d tk' :
  merge tk d = Return tk' ->
  exists doc, d = Some doc /\
    name tk' = name tk /\ id tk' = id tk /\ taskListId tk' = taskListId tk /\
    dueDay tk' = None /\
    priority tk' = Fb.priority doc /\
    estTimeToComplete tk' = Fb.estTimeToComplete doc /\
    timeSpent tk' = Fb.timeSpent doc /\
    (truthy (Fb.dueTime doc) = true ->
       exists day, dueDay tk = Some day /\
         dueDateAndTime tk' =
           JStr (substring 0 10 day +:+ default "" (Fb.dueTime doc))) /\
    (truthy (Fb.dueTime doc) = false ->
       dueDateAndTime tk' = of_property (dueDay tk)).
Proof.
  unfold merge. destruct d as [doc|]; [|discriminate].
  intros H. exists doc. split; [done|].
  destruct (truthy (Fb.dueTime doc)) eqn:T.
  - destruct (dueDay tk) as [day|] eqn:D; [|discriminate].
    injection H as <-. simpl. repeat split; try done. eauto.
  - injection H as <-. simpl. repeat split; done.
Qed.

Lemma merge_readable fb tk :
  readable fb tk -> exists tk', enriched fb tk tk'.
Proof.
  intros (d & Hd & Hday). unfold enriched, merge.
  destruct (truthy (Fb.dueTime d)) eqn:T.
  - destruct (Hday eq_refl) as [day Hdue]. rewrite Hdue.
    eexists. exists d. rewrite T. split; [done|]. reflexivity.
  - eexists. exists d. rewrite T. split; [done|]. reflexivity.
Qed.

(** The second loop, entered at the index [length pre]: the elements before
    the index are left alone, every later one is either enriched or, after a
    throw, still as it was; a run that returns has enriched them all. *)
Lemma merge_loop_spec fb fuel : forall pre rest w c w',
  taskArray (self w) = pre ++ rest ->
  merge_loop fb fuel (length pre) w = (c, w') ->
  exists rest',
    taskArray (self w') = pre ++ rest' /\
    Forall2 (touched fb) rest rest' /\
    (c = Return tt -> length rest <= fuel -> Forall2 (enriched fb) rest rest').
Proof.
  induction fuel as [|fuel IH]; intros pre rest w c w' Harr; simpl.
  - intros [= <- <-]. exists rest. split; [done|]. split.
    + apply Forall_Forall2_diag, Forall_forall. intros; by left.
    + intros _ Hlen. destruct rest; [constructor | simpl in Hlen; lia].
  - unfold bind at 1. unfold this at 1. rewrite Harr.
    destruct rest as [|tk rest].
    + rewrite app_nil_r, lookup_ge_None_2 by lia.
      intros [= <- <-]. exists []. rewrite app_nil_r in Harr. 
      rewrite app_nil_r. repeat split; [done|constructor|constructor].
    + rewrite list_lookup_middle by done.
      unfold bind at 1. unfold emit at 1. unfold bind at 1.
      destruct (fb (id tk)) as [d|r] eqn:Hfb; simpl.
      2:{ intros [= <- <-]. exists (tk :: rest). simpl. split; [done|]. split.
          - apply Forall_Forall2_diag, Forall_forall. intros; by left.
          - discriminate. }
      unfold bind at 1. unfold lift at 1.
      destruct (merge tk d) as [tk'|e] eqn:Hm.
      2:{ intros [= <- <-]. exists (tk :: rest). simpl. split; [done|]. split.
          - apply Forall_Forall2_diag, Forall_forall. intros; by left.
          - discriminate. }
      unfold bind at 1. unfold set_taskArray at 1. intros Hrun.
      assert (enriched fb tk tk') as Henr.
      { destruct (merge_Return _ _ _ Hm) as (doc & -> & _). by exists doc. }
      replace (S (length pre)) with (length (pre ++ [tk'])) in Hrun
        by (rewrite length_app; simpl; lia).
      apply IH with (rest := rest) in Hrun as (rest' & Harr' & Htouched & Hall).
      * exists (tk' :: rest'). rewrite Harr', <- app_assoc. split; [done|]. split.
        -- constructor; [by right | done].
        -- intros Hc Hlen. constructor; [done|]. apply Hall; [done|].
           simpl in Hlen. lia.
      * simpl. rewrite insert_app_r_alt by lia.
        replace (length pre - length pre) with 0 by lia. simpl.
        by rewrite <- app_assoc.
Qed.

Lemma getFirebaseData_spec fb w c w' :
  getFirebaseData fb w = (c, w') ->
  Forall2 (touched fb) (taskArray (self w)) (taskArray (self w')) /\
  (c = Return tt ->
   Forall2 (enriched fb) (taskArray (self w)) (taskArray (self w'))).
Proof.
  unfold getFirebaseData. unfold bind at 1. unfold this at 1. unfold bind at 1.
  destruct (init_loop_self (userEmail (self w)) (taskArray (self w)) w)
    as (w1 & -> & Hw1).
  intros Hrun. rewrite <- Hw1 in Hrun at 1.
  apply (merge_loop_spec fb _ [] (taskArray (self w1))) in Hrun
    as (rest' & Harr' & Htouched & Hall); [|done].
  simpl in Harr'. rewrite Harr', <- Hw1. split; [done|].
  intros Hc. by apply Hall.
Qed.

Lemma merge_loop_returns fb fuel : forall pre rest w,
  taskArray (self w) = pre ++ rest ->
  Forall (readable fb) rest ->
  exists w', merge_loop fb fuel (length pre) w = (Return tt, w').
Proof.
  induction fuel as [|fuel IH]; intros pre rest w Harr Hall; simpl.
  - by exists w.
  - unfold bind at 1. unfold this at 1. rewrite Harr.
    destruct Hall as [|tk rest Htk Hall].
    + rewrite app_nil_r, lookup_ge_None_2 by lia. by exists w.
    + rewrite list_lookup_middle by done.
      destruct (merge_readable fb tk Htk) as (tk' & d & Hfb & Hm).
      unfold bind at 1. unfold emit at 1. unfold bind at 1.
      rewrite Hfb. cbn [await]. unfold ret at 1.
      unfold bind at 1. unfold lift at 1. rewrite Hm.
      unfold bind at 1. unfold set_taskArray at 1.
      replace (S (length pre)) with (length (pre ++ [tk']))
        by (rewrite length_app; simpl; lia).
      apply IH with (rest := rest); [|done].
      simpl. rewrite insert_app_r_alt by lia.
      replace (length pre - length pre) with 0 by lia. simpl.
      by rewrite <- app_assoc.
Qed.

(** The method returns whenever every document can be read and merged. *)
Lemma getFirebaseData_returns fb w :
  Forall (readable fb) (taskArray (self w)) ->
  exists w', getFirebaseData fb w = (Return tt, w').
Proof.
  intros Hall. unfold getFirebaseData. unfold bind at 1. unfold this at 1.
  unfold bind at 1.
  destruct (init_loop_self (userEmail (self w)) (taskArray (self w)) w)
    as (w1 & -> & Hw1).
  rewrite <- Hw1 in Hall. rewrite <- Hw1.
  apply (merge_loop_returns fb _ [] (taskArray (self w1))); done.
Qed.

Lemma touched_identity fb tk tk' :
  touched fb tk tk' ->
  id tk' = id tk /\ name tk' = name tk /\ taskListId tk' = taskListId tk.
Proof.
  intros [->|(d & _ & Hm)]; [done|].
  apply merge_Return in Hm as (doc & _ & Hn & Hi & Hl & _). done.
Qed.

Lemma touched_ids fb (arr arr' : list task) :
  Forall2 (touched fb) arr arr' -> ids arr' = ids arr.
Proof.
  unfold ids. induction 1 as [|tk tk' arr arr' Ht _ IH]; [done|].
  rewrite !fmap_cons, IH. f_equal. by apply touched_identity in Ht as [-> _].
Qed.

Lemma truthy_true s : truthy s = true <-> exists time, s = Some time /\ time <> "".
Proof.
  destruct s as [[|c s]|]; simpl; split; try done.
  - intros (time & [= <-] & H). done.
  - intros _. eauto.
  - intros (time & H & _). done.
Qed.

Lemma enriched_due_merged fb tk tk' :
  enriched fb tk tk' ->
  exists doc, fb (id tk) = Resolved (Some doc) /\ due_merged doc tk tk'.
Proof.
  intros (d & Hfb & Hm). exists d. split; [done|].
  apply merge_Return in Hm
    as (doc & [= <-] & _ & _ & _ & Hday & _ & _ & _ & Hyes & Hno).
  split; [done|]. split.
  - intros time Htime Hne.
    destruct Hyes as (day & Hd & Hdue).
    { apply truthy_true. eauto. }
    exists day. split; [done|]. by rewrite Hdue, Htime.
  - intros Hnone. apply Hno.
    destruct Hnone as [-> | ->]; done.
Qed.

(** ** initiate *)

Lemma initiate_after g fb w w' c w'' :
  getGoogleData g w = (Return tt, w') ->
  initiate g fb w = (c, w'') ->
  exists c', getFirebaseData fb w' = (c', w'').
Proof.
  intros Hg. unfold initiate. unfold bind at 1. rewrite Hg.
  unfold bind at 1.
  destruct (getFirebaseData fb w') as [[[]|e] w2].
  - intros [= <- <-]. eauto.
  - intros [= <- <-]. eauto.
Qed.

Lemma reported_ids_inj g p q :
  NoDup (reported_ids g) -> p ∈ reported g -> q ∈ reported g ->
  G.id p.2 = G.id q.2 -> p = q.
Proof.
  unfold reported_ids. intros Hnd Hp Hq Heq.
  apply list_elem_of_lookup in Hp as [i Hi], Hq as [j Hj].
  assert (i = j) as ->.
  { eapply NoDup_lookup; [exact Hnd | |].
    - rewrite list_lookup_fmap, Hi. reflexivity.
    - rewrite list_lookup_fmap, Hj. simpl. by rewrite Heq. }
  congruence.
Qed.

(** With distinct ids at the service, the id of a completed task is not the
    id of any open record. *)
Lemma completed_id_absent g p :
  NoDup (reported_ids g) -> p ∈ reported g -> G.status p.2 = "completed" ->
  G.id p.2 ∉ ids (open_records g).
Proof.
  intros Hnd Hp Hdone Hin. unfold ids, open_records in Hin.
  rewrite <- list_fmap_compose in Hin.
  apply list_elem_of_fmap in Hin as (q & Heq & Hq).
  apply list_elem_of_filter in Hq as [Hopen Hq].
  assert (p = q) as -> by (eapply reported_ids_inj; eauto).
  unfold is_open, completed in Hopen.
  by rewrite bool_decide_eq_false in Hopen.
Qed.

Lemma is_open_status p : is_open p <-> G.status p.2 <> "completed".
Proof. unfold is_open, completed. apply bool_decide_eq_false. Qed.

(** C1. When the task-list service answers every fetch, [getGoogleData]
    returns and [taskArray] holds, in order, exactly one record for each
    reported task whose status is not "completed": the record has the
    task's title as [name], the task's [id], the id of the task's list as
    [taskListId] and the task's [due] as [dueDay], and nothing else yet.
    [initiate] then keeps these ids whatever Firestore answers.  So, the
    service giving distinct ids to its tasks, no record carries the id of a
    task reported as completed, after [getGoogleData] and after
    [initiate]. *)
Theorem getGoogleData_open_tasks g w :
  answered g ->
  exists w',
    getGoogleData g w = (Return tt, w') /\
    Forall2 (fun p tk =>
               name tk = G.title p.2 /\ id tk = G.id p.2 /\
               taskListId tk = p.1 /\ dueDay tk = G.due p.2 /\
               priority tk = JUndefined /\ estTimeToComplete tk = JUndefined /\
               timeSpent tk = JUndefined /\ dueDateAndTime tk = JUndefined)
            (filter (fun p => G.status p.2 <> "completed") (reported g))
            (taskArray (self w')) /\
    (forall fb c w'', initiate g fb w = (c, w'') ->
       ids (taskArray (self w'')) = ids (taskArray (self w'))) /\
    (NoDup (reported_ids g) ->
     forall p, p ∈ reported g -> G.status p.2 = "completed" ->
       (G.id p.2 ∉ ids (taskArray (self w'))) /\
       (forall fb c w'', initiate g fb w = (c, w'') ->
          G.id p.2 ∉ ids (taskArray (self w'')))).
Proof.
  intros Hans. destruct (getGoogleData_answered g w Hans) as (w' & Hrun & Harr).
  assert (forall fb c w'', initiate g fb w = (c, w'') ->
            ids (taskArray (self w'')) = ids (taskArray (self w'))) as Hinit.
  { intros fb c w'' Hi.
    destruct (initiate_after g fb w w' c w'' Hrun Hi) as [c' Hfb].
    apply getFirebaseData_spec in Hfb as [Ht _]. by apply touched_ids in Ht. }
  exists w'. split; [done|]. split; [|split; [done|]].
  - rewrite Harr. unfold open_records.
    rewrite (list_filter_iff is_open (fun p => G.status p.2 <> "completed"))
      by apply is_open_status.
    apply Forall2_fmap_r, Forall_Forall2_diag, Forall_forall.
    intros p _. cbn. unfold record_of, newTask. cbn. done.
  - intros Hnd p Hp Hdone. split.
    + rewrite Harr. by apply completed_id_absent.
    + intros fb c w'' Hi. rewrite (Hinit fb c w'' Hi), Harr.
      by apply completed_id_absent.
Qed.

Lemma getGoogleData_open_tasks_witness :
  exists w', getGoogleData Sample.google Sample.w0 = (Return tt, w') /\
             taskArray (self w') =
               [ {| name := "water the fern"; id := "t1"; taskListId := "L1";
                    dueDay := Some "2022-04-05T00:00:00.000Z";
                    priority := JUndefined; estTimeToComplete := JUndefined;
                    timeSpent := JUndefined; dueDateAndTime := JUndefined |} ] /\
             "t2" ∉ ids (taskArray (self w')).
Proof.
  assert (answered Sample.google) as Hans.
  { exists [ {| G.list_id := "L1" |} ]. split; [reflexivity|].
    intros l _. eexists. reflexivity. }
  destruct (getGoogleData_open_tasks Sample.google Sample.w0 Hans)
    as (w' & Hrun & Hall & _ & Habs).
  exists w'. split; [exact Hrun|]. split.
  - change (filter (fun p => G.status p.2 <> "completed") (reported Sample.google))
      with [("L1", Sample.water)] in Hall.
    apply Forall2_cons_inv_l in Hall as (tk & rest & Htk & Hrest & ->).
    apply Forall2_nil_inv_l in Hrest as ->.
    destruct tk as [n i l d pr es ts dd].
    cbn in Htk. destruct Htk as (-> & -> & -> & -> & -> & -> & -> & ->).
    reflexivity.
  - assert (NoDup (reported_ids Sample.google)) as Hnd
      by (apply (bool_decide_unpack _); vm_compute; exact I).
    apply (Habs Hnd ("L1", Sample.repot)); [|reflexivity].
    apply list_elem_of_In. right. left. reflexivity.
Defined.

(** ** The merge of the due date *)

(** The example of the specification, and the same date in the form Google
    Tasks sends it. *)
Example merge_date_and_time :
  dueDateAndTime <$>
    (match merge Sample.fern
             (Some {| Fb.priority := JNull; Fb.estTimeToComplete := JNull;
                      Fb.timeSpent := JNum 0; Fb.dueTime := Some "T17:23:42" |})
     with Return tk' => Some tk' | Throw _ => None end)
  = Some (JStr "2022-04-05T17:23:42").
Proof. reflexivity. Qed.

Example merge_timestamp_and_time :
  substring 0 10 "2022-04-05T00:00:00.000Z" +:+ "T17:23:42" = "2022-04-05T17:23:42".
Proof. reflexivity. Qed.

Example merge_date_only :
  dueDateAndTime <$>
    (match merge Sample.fern
             (Some {| Fb.priority := JNull; Fb.estTimeToComplete := JNull;
                      Fb.timeSpent := JNum 0; Fb.dueTime := None |})
     with Return tk' => Some tk' | Throw _ => None end)
  = Some (JStr "2022-04-05").
Proof. reflexivity. Qed.

(** C2, as the claim states it, fails on a time of day that is supplied
    but empty: the test [if (taskFbData.dueTime)] takes the empty string for
    no time of day, and the due day stays whole where the claim cuts it to
    its first ten characters. *)
Lemma getFirebaseData_empty_dueTime :
  exists tk',
    taskArray
      (self (getFirebaseData Sample3.firestore_empty_time Sample3.w5).2) = [tk'] /\
    dueDateAndTime tk' = JStr "2022-04-05T00:00:00.000Z" /\
    dueDateAndTime tk' <>
      JStr (substring 0 10 "2022-04-05T00:00:00.000Z" +:+ "").
Proof.
  eexists. split; [reflexivity|]. split; [reflexivity | discriminate].
Qed.

(** C2, as the code has it.  In a run of [getFirebaseData], every record
    the loop has processed has lost [dueDay], and its [dueDateAndTime] is:
    the first ten characters of its due day followed by the time of day of
    its document, when the document has a time of day that is not the empty
    string; its due day as it was (the whole string, or undefined when the
    record had none), when the document has no time of day or an empty one.
    A record the loop did not reach, after a throw, is as it was.  A run
    that returns has processed every record, and the run returns whenever
    every document can be read and merged. *)
Theorem getFirebaseData_dueDateAndTime fb w c w' :
  getFirebaseData fb w = (c, w') ->
  Forall2 (fun tk tk' =>
             tk' = tk \/
             exists doc, fb (id tk) = Resolved (Some doc) /\
               dueDay tk' = None /\
               (forall time, Fb.dueTime doc = Some time -> time <> "" ->
                  exists day, dueDay tk = Some day /\
                    dueDateAndTime tk' = JStr (substring 0 10 day +:+ time)) /\
               (Fb.dueTime doc = None \/ Fb.dueTime doc = Some "" ->
                  dueDateAndTime tk' =
                    match dueDay tk with
                    | Some day => JStr day
                    | None => JUndefined
                    end))
          (taskArray (self w)) (taskArray (self w')) /\
  (c = Return tt ->
   Forall2 (fun tk tk' =>
              exists doc, fb (id tk) = Resolved (Some doc) /\
                dueDay tk' = None /\
                (forall time, Fb.dueTime doc = Some time -> time <> "" ->
                   exists day, dueDay tk = Some day /\
                     dueDateAndTime tk' = JStr (substring 0 10 day +:+ time)) /\
                (Fb.dueTime doc = None \/ Fb.dueTime doc = Some "" ->
                   dueDateAndTime tk' =
                     match dueDay tk with
                     | Some day => JStr day
                     | None => JUndefined
                     end))
           (taskArray (self w)) (taskArray (self w'))) /\
  (Forall (readable fb) (taskArray (self w)) -> c = Return tt).
Proof.
  intros Hrun. pose proof (getFirebaseData_spec fb w c w' Hrun) as [Ht Hall].
  assert (forall tk tk', enriched fb tk tk' ->
            exists doc, fb (id tk) = Resolved (Some doc) /\
              dueDay tk' = None /\
              (forall time, Fb.dueTime doc = Some time -> time <> "" ->
                 exists day, dueDay tk = Some day /\
                   dueDateAndTime tk' = JStr (substring 0 10 day +:+ time)) /\
              (Fb.dueTime doc = None \/ Fb.dueTime doc = Some "" ->
                 dueDateAndTime tk' =
                   match dueDay tk with
                   | Some day => JStr day
                   | None => JUndefined
                   end)) as Hstep.
  { intros tk tk' He.
    destruct (enriched_due_merged _ _ _ He) as (doc & Hdoc & Hday & Hyes & Hno).
    exists doc. split; [done|]. split; [done|]. split; [done|].
    intros Hnone. rewrite (Hno Hnone). unfold of_property.
    by destruct (dueDay tk). }
  split; [|split].
  - eapply Forall2_impl; [exact Ht|]. intros tk tk' [->|He]; [by left|right].
    by apply Hstep.
  - intros Hc. eapply Forall2_impl; [exact (Hall Hc)|]. intros tk tk' He.
    by apply Hstep.
  - intros Hread. destruct (getFirebaseData_returns fb w Hread) as [w2 H2].
    congruence.
Qed.

Lemma getFirebaseData_dueDateAndTime_witness :
  (exists tk',
     taskArray (self (getFirebaseData Sample.firestore Sample.w1).2) = [tk'] /\
     dueDay tk' = None /\
     dueDateAndTime tk' = JStr "2022-04-05T17:23:42") /\
  (exists tk',
     taskArray (self (getFirebaseData Sample2.firestore_plain Sample.w1).2) = [tk'] /\
     dueDay tk' = None /\
     dueDateAndTime tk' = JStr "2022-04-05") /\
  (exists tk',
     taskArray
       (self (getFirebaseData Sample3.firestore_empty_time Sample3.w5).2) = [tk'] /\
     dueDay tk' = None /\
     dueDateAndTime tk' = JStr "2022-04-05T00:00:00.000Z").
Proof.
  split; [|split].
  - pose proof (getFirebaseData_dueDateAndTime Sample.firestore Sample.w1
                  (Return tt) (getFirebaseData Sample.firestore Sample.w1).2
                  eq_refl) as (_ & Hall & _).
    specialize (Hall eq_refl).
    change (taskArray (self Sample.w1)) with [Sample.fern] in Hall.
    apply Forall2_cons_inv_l in Hall as (tk' & rest & Htk & Hrest & Heq).
    apply Forall2_nil_inv_l in Hrest as ->.
    destruct Htk as (doc & Hdoc & Hday & Hyes & _).
    injection Hdoc as <-.
    destruct (Hyes "T17:23:42" eq_refl ltac:(discriminate)) as (day & Hd & Hdue).
    injection Hd as <-.
    exists tk'. split; [exact Heq|]. split; [exact Hday | exact Hdue].
  - pose proof (getFirebaseData_dueDateAndTime Sample2.firestore_plain Sample.w1
                  (Return tt) (getFirebaseData Sample2.firestore_plain Sample.w1).2
                  eq_refl) as (_ & Hall & _).
    specialize (Hall eq_refl).
    change (taskArray (self Sample.w1)) with [Sample.fern] in Hall.
    apply Forall2_cons_inv_l in Hall as (tk' & rest & Htk & Hrest & Heq).
    apply Forall2_nil_inv_l in Hrest as ->.
    destruct Htk as (doc & Hdoc & Hday & _ & Hno).
    injection Hdoc as <-.
    exists tk'. split; [exact Heq|]. split; [exact Hday|].
    exact (Hno (or_introl eq_refl)).
  - pose proof (getFirebaseData_dueDateAndTime Sample3.firestore_empty_time
                  Sample3.w5 (Return tt)
                  (getFirebaseData Sample3.firestore_empty_time Sample3.w5).2
                  eq_refl) as (_ & Hall & _).
    specialize (Hall eq_refl).
    change (taskArray (self Sample3.w5)) with [newTask "L1" Sample.water] in Hall.
    apply Forall2_cons_inv_l in Hall as (tk' & rest & Htk & Hrest & Heq).
    apply Forall2_nil_inv_l in Hrest as ->.
    destruct Htk as (doc & Hdoc & Hday & _ & Hno).
    injection Hdoc as <-.
    exists tk'. split; [exact Heq|]. split; [exact Hday|].
    exact (Hno (or_intror eq_refl)).
Defined.

(** ** The frame of getFirebaseData *)

(** C10. [getFirebaseData] neither adds, removes nor reorders records:
    whatever Firestore answers and however the run ends, the array keeps its
    length and every position keeps its [id], [name] and [taskListId].  In a
    run that returns, every record has lost [dueDay] and has [priority],
    [estTimeToComplete] and [timeSpent] set from its document, and
    [dueDateAndTime] set from the merge. *)
Theorem getFirebaseData_frame fb w c w' :
  getFirebaseData fb w = (c, w') ->
  length (taskArray (self w')) = length (taskArray (self w)) /\
  (forall i tk, taskArray (self w) !! i = Some tk ->
     exists tk', taskArray (self w') !! i = Some tk' /\
       id tk' = id tk /\ name tk' = name tk /\ taskListId tk' = taskListId tk) /\
  (c = Return tt ->
   forall i tk, taskArray (self w) !! i = Some tk ->
     exists tk' doc,
       taskArray (self w') !! i = Some tk' /\
       fb (id tk) = Resolved (Some doc) /\
       dueDay tk' = None /\
       priority tk' = Fb.priority doc /\
       estTimeToComplete tk' = Fb.estTimeToComplete doc /\
       timeSpent tk' = Fb.timeSpent doc /\
       due_merged doc tk tk').
Proof.
  intros Hrun. pose proof (getFirebaseData_spec fb w c w' Hrun) as [Ht Hall].
  split; [|split].
  - symmetry. by eapply Forall2_length.
  - intros i tk Hi.
    destruct (Forall2_lookup_l _ _ _ _ _ Ht Hi) as (tk' & Hi' & Htk).
    exists tk'. split; [done|]. by apply touched_identity in Htk.
  - intros Hc i tk Hi.
    destruct (Forall2_lookup_l _ _ _ _ _ (Hall Hc) Hi) as (tk' & Hi' & Htk).
    destruct (enriched_due_merged _ _ _ Htk) as (doc & Hdoc & Hdue).
    destruct Htk as (d & Hd & Hm).
    assert (d = doc) as -> by congruence.
    apply merge_Return in Hm
      as (doc' & [= <-] & _ & _ & _ & Hday & Hp & He & Hs & _).
    exists tk', doc. repeat split; try done; apply Hdue.
Qed.

Lemma getFirebaseData_frame_witness :
  length (taskArray (self (getFirebaseData Sample.firestore Sample.w1).2)) = 1 /\
  exists tk',
    taskArray (self (getFirebaseData Sample.firestore Sample.w1).2) !! 0 = Some tk' /\
    id tk' = "t1" /\ name tk' = "water the fern" /\ taskListId tk' = "L1".
Proof.
  pose proof (getFirebaseData_frame Sample.firestore Sample.w1
                (Return tt) (getFirebaseData Sample.firestore Sample.w1).2
                eq_refl) as (Hlen & Hid & _).
  split; [exact Hlen|]. exact (Hid 0 Sample.fern eq_refl).
Defined.

(** ** createTask *)

Lemma createTask_run_rejected reason name' dueDate priority' estTimeToComplete' w :
  createTask (Rejected reason) name' dueDate priority' estTimeToComplete' w =
    (Throw (Rejection reason),
     {| self := self w;
        issued := issued w ++ [CreateGoogleTask name' dueDate (accessToken (self w))] |}).
Proof. reflexivity. Qed.

Lemma createTask_run_resolved taskId name' dueDate priority' estTimeToComplete' w :
  createTask (Resolved taskId) name' dueDate priority' estTimeToComplete' w =
    (Return tt,
     {| self :=
          {| accessToken := accessToken (self w);
             userEmail := userEmail (self w);
             taskArray :=
               taskArray (self w) ++
               [ {| name := name'; id := taskId; taskListId := "@default";
                    dueDay := None; priority := priority';
                    estTimeToComplete := estTimeToComplete';
                    timeSpent := JNum 0; dueDateAndTime := dueDate |} ];
             initiated := initiated (self w) |};
        issued :=
          issued w ++
          [ CreateGoogleTask name' dueDate (accessToken (self w));
            InitFirebaseTaskData (userEmail (self w)) taskId name';
            UpdateFirebaseTaskData (userEmail (self w)) taskId name'
              priority' estTimeToComplete' (JNum 0) false dueDate ] |}).
Proof.
  cbv [createTask bind this emit await ret set_taskArray].
  cbn [self taskArray issued accessToken userEmail initiated].
  rewrite store_at_length, <- !app_assoc. reflexivity.
Qed.

(** C4. When the promise of [createGoogleTask] rejects, [createTask] throws
    the rejection at the [await]: the only call issued is the creation
    request itself, so no Firestore write is issued, and the object, with
    its [taskArray], is as it was. *)
Theorem createTask_rejected reason name' dueDate priority' estTimeToComplete' w :
  createTask (Rejected reason) name' dueDate priority' estTimeToComplete' w =
    (Throw (Rejection reason),
     {| self := self w;
        issued := issued w ++ [CreateGoogleTask name' dueDate (accessToken (self w))] |})
  /\ taskArray
       (self (createTask (Rejected reason) name' dueDate priority'
                estTimeToComplete' w).2) = taskArray (self w)
  /\ filter is_firestore_write
       (issued (createTask (Rejected reason) name' dueDate priority'
                  estTimeToComplete' w).2) =
     filter is_firestore_write (issued w).
Proof.
  rewrite createTask_run_rejected. split; [reflexivity|]. split; [reflexivity|].
  simpl. rewrite filter_app, filter_cons_False, filter_nil, app_nil_r; [done|].
  simpl. tauto.
Qed.

(** C6. When [createGoogleTask] resolves with [taskId], [createTask] returns
    and [taskArray] is the former array followed by one new record, which
    has the supplied name, priority and estimate, the supplied due date as
    [dueDateAndTime], [timeSpent] 0, the id [taskId] and the list
    ["@default"].  The three remote calls were issued before, in the order
    Google, Firestore init, Firestore update. *)
Theorem createTask_resolved taskId name' dueDate priority' estTimeToComplete' w :
  exists w',
    createTask (Resolved taskId) name' dueDate priority' estTimeToComplete' w =
      (Return tt, w') /\
    taskArray (self w') =
      taskArray (self w) ++
      [ {| name := name'; id := taskId; taskListId := "@default";
           dueDay := None; priority := priority';
           estTimeToComplete := estTimeToComplete';
           timeSpent := JNum 0; dueDateAndTime := dueDate |} ] /\
    length (taskArray (self w')) = S (length (taskArray (self w))) /\
    issued w' =
      issued w ++
      [ CreateGoogleTask name' dueDate (accessToken (self w));
        InitFirebaseTaskData (userEmail (self w)) taskId name';
        UpdateFirebaseTaskData (userEmail (self w)) taskId name'
          priority' estTimeToComplete' (JNum 0) false dueDate ].
Proof.
  eexists. split; [apply createTask_run_resolved|].
  cbn [self taskArray issued]. split; [done|]. split; [|done].
  rewrite length_app. simpl. lia.
Qed.

(** ** findTask *)

Lemma scan_first taskId pre tk post i :
  id tk = taskId -> taskId ∉ ids pre ->
  scan taskId (pre ++ tk :: post) i = Some (i + length pre).
Proof.
  intros Hid. revert i. induction pre as [|x pre IH]; intros i Hpre; simpl.
  - rewrite bool_decide_eq_true_2 by done. f_equal. lia.
  - unfold ids in Hpre. rewrite fmap_cons, not_elem_of_cons in Hpre.
    destruct Hpre as [Hx Hpre].
    rewrite bool_decide_eq_false_2 by congruence.
    rewrite IH by done. f_equal. lia.
Qed.

Lemma scan_None taskId arr i :
  scan taskId arr i = None <-> taskId ∉ ids arr.
Proof.
  unfold ids. revert i. induction arr as [|x arr IH]; intros i; cbn [scan].
  - split; [intros _; apply not_elem_of_nil | done].
  - rewrite fmap_cons, not_elem_of_cons. case_bool_decide as Hx.
    + split; [done | intros [Hne _]; congruence].
    + rewrite IH. split; [intros H; split; [congruence | done] | tauto].
Qed.

(** An id that occurs has a first occurrence, which is the one [scan] finds. *)
Lemma scan_present taskId arr :
  taskId ∈ ids arr ->
  exists pre tk post,
    arr = pre ++ tk :: post /\ id tk = taskId /\ taskId ∉ ids pre.
Proof.
  unfold ids. induction arr as [|x arr IH]; intros Hin.
  - by apply elem_of_nil in Hin.
  - destruct (decide (id x = taskId)) as [Hx|Hx].
    + exists [], x, arr. split; [done|]. split; [done|]. apply not_elem_of_nil.
    + rewrite fmap_cons in Hin. apply elem_of_cons in Hin as [Hin|Hin]; [congruence|].
      destruct (IH Hin) as (pre & tk & post & -> & Hid & Hpre).
      exists (x :: pre), tk, post. split; [done|]. split; [done|].
      rewrite fmap_cons, not_elem_of_cons. split; [congruence | done].
Qed.

Lemma findTask_present taskId pre tk post w :
  taskArray (self w) = pre ++ tk :: post ->
  id tk = taskId -> taskId ∉ ids pre ->
  findTask taskId w = (Return (Some (length pre)), w).
Proof.
  intros Harr Hid Hpre. unfold findTask, bind, this.
  rewrite Harr, (scan_first taskId pre tk post 0 Hid Hpre). done.
Qed.

Lemma findTask_absent taskId w :
  taskId ∉ ids (taskArray (self w)) ->
  findTask taskId w =
    (Return None,
     {| self := self w;
        issued := issued w ++ [ConsoleLog "Error: Did not find task"] |}).
Proof.
  intros Habs. unfold findTask, bind, this.
  apply (scan_None taskId _ 0) in Habs. rewrite Habs. done.
Qed.

(** ** completeTask *)

Lemma completeTask_run_present taskId pre tk post w :
  taskArray (self w) = pre ++ tk :: post ->
  id tk = taskId -> taskId ∉ ids pre ->
  exists w',
    completeTask taskId w = (Return tt, w') /\
    taskArray (self w') = pre ++ post /\
    issued w' =
      issued w ++
      [ SetTaskCompleteInFirebase (userEmail (self w)) taskId true;
        CompleteGoogleTask taskId JUndefined (accessToken (self w)) ].
Proof.
  intros Harr Hid Hpre. eexists. split.
  { unfold completeTask. unfold bind at 1. unfold this at 1.
    unfold bind at 1. unfold emit at 1. unfold bind at 1. unfold emit at 1.
    unfold bind at 1.
    erewrite findTask_present; [|exact Harr|exact Hid|exact Hpre].
    cbv [bind this set_taskArray]. reflexivity. }
  cbn [self taskArray issued]. rewrite Harr. unfold splice1. simpl.
  rewrite delete_middle. split; [done|]. by rewrite <- app_assoc.
Qed.

(** C7. For an id that occurs in [taskArray], [completeTask] returns and has
    removed the first record with that id and nothing else: the records
    before it and after it are kept, in order, and the array is one shorter.
    Both remote calls were issued before. *)
Theorem completeTask_present taskId w :
  taskId ∈ ids (taskArray (self w)) ->
  exists pre tk post w',
    taskArray (self w) = pre ++ tk :: post /\
    id tk = taskId /\ (taskId ∉ ids pre) /\
    completeTask taskId w = (Return tt, w') /\
    taskArray (self w') = pre ++ post /\
    S (length (taskArray (self w'))) = length (taskArray (self w)) /\
    issued w' =
      issued w ++
      [ SetTaskCompleteInFirebase (userEmail (self w)) taskId true;
        CompleteGoogleTask taskId JUndefined (accessToken (self w)) ].
Proof.
  intros Hin. destruct (scan_present taskId _ Hin) as (pre & tk & post & Harr & Hid & Hpre).
  destruct (completeTask_run_present taskId pre tk post w Harr Hid Hpre)
    as (w' & Hrun & Harr' & Hissued).
  exists pre, tk, post, w'. repeat split; try done.
  rewrite Harr, Harr', !length_app. simpl. lia.
Qed.

Lemma completeTask_present_witness :
  exists w', completeTask "t1" Sample.w1 = (Return tt, w') /\
             taskArray (self w') = [].
Proof.
  assert ("t1" ∈ ids (taskArray (self Sample.w1))) as Hin
    by (apply list_elem_of_In; left; reflexivity).
  destruct (completeTask_present "t1" Sample.w1 Hin)
    as (pre & tk & post & w' & Harr & _ & _ & Hrun & Harr' & _).
  exists w'. split; [exact Hrun|].
  change (taskArray (self Sample.w1)) with [Sample.fern] in Harr.
  destruct pre as [|x pre].
  - injection Harr as _ <-. exact Harr'.
  - destruct pre; discriminate Harr.
Defined.

(** An id that does not occur: [findTask] logs and yields [undefined], and
    [splice(undefined, 1)] then removes the first record, if there is one;
    the method returns normally. *)
Lemma completeTask_absent taskId w :
  taskId ∉ ids (taskArray (self w)) ->
  exists w',
    completeTask taskId w = (Return tt, w') /\
    taskArray (self w') = drop 1 (taskArray (self w)) /\
    issued w' =
      issued w ++
      [ SetTaskCompleteInFirebase (userEmail (self w)) taskId true;
        CompleteGoogleTask taskId JUndefined (accessToken (self w));
        ConsoleLog "Error: Did not find task" ].
Proof.
  intros Habs. eexists. split.
  { unfold completeTask. unfold bind at 1. unfold this at 1.
    unfold bind at 1. unfold emit at 1. unfold bind at 1. unfold emit at 1.
    unfold bind at 1.
    rewrite findTask_absent by exact Habs.
    cbv [bind this set_taskArray]. reflexivity. }
  cbn [self taskArray issued]. split.
  - unfold splice1. simpl. by destruct (taskArray (self w)).
  - by rewrite <- !app_assoc.
Qed.

(** C5, on the code.  [completeTask] with an id that is in no record
    reports nothing: it returns, and the one record of the collection,
    which has another id, is gone. *)
Theorem completeTask_unknown_id :
  ("t9" ∉ ids (taskArray (self Sample.w1))) /\
  completeTask "t9" Sample.w1 =
    (Return tt,
     {| self := {| accessToken := "token"; userEmail := "ada@example.org";
                   taskArray := []; initiated := false |};
        issued := [ SetTaskCompleteInFirebase "ada@example.org" "t9" true;
                    CompleteGoogleTask "t9" JUndefined "token";
                    ConsoleLog "Error: Did not find task" ] |}).
Proof.
  split; [|reflexivity].
  apply (bool_decide_unpack _). vm_compute. exact I.
Qed.

(** ** updateTask *)

Lemma assign_middle f pre tk post w :
  taskArray (self w) = pre ++ tk :: post ->
  assign (Some (length pre)) f w = set_taskArray (pre ++ f tk :: post) w.
Proof.
  intros Harr. unfold assign, bind, this. simpl. rewrite Harr.
  rewrite list_lookup_middle by done.
  rewrite insert_app_r_alt by lia.
  replace (length pre - length pre) with 0 by lia. done.
Qed.

Lemma assign_undefined f w : assign None f w = (Throw TypeError, w).
Proof. reflexivity. Qed.

(** C8, as the code has it.  When [updateGoogleTask] resolves with an id
    that occurs in [taskArray] (the id passed in, if the service keeps it)
    and the due date is a valid Date, [updateTask] returns and has
    overwritten, in the first record with that id, [name], [priority],
    [estTimeToComplete] and [timeSpent] with the supplied values and
    [dueDateAndTime] with the ISO string of the due date.  The [id] and the
    [taskListId] of the record are kept (the supplied list id only goes to
    Google Tasks), and so is every other record. *)
Theorem updateTask_present isoString taskId' taskId taskListId' name' tv
    priority' estTimeToComplete' timeSpent' w :
  taskId' ∈ ids (taskArray (self w)) ->
  PrimFloat.is_nan tv = false ->
  exists pre tk post w',
    taskArray (self w) = pre ++ tk :: post /\
    id tk = taskId' /\ (taskId' ∉ ids pre) /\
    updateTask isoString (Resolved taskId') taskId taskListId' name' (JDate tv)
      priority' estTimeToComplete' timeSpent' w = (Return tt, w') /\
    taskArray (self w') =
      pre ++
      {| name := name'; id := id tk; taskListId := taskListId tk;
         dueDay := dueDay tk; priority := priority';
         estTimeToComplete := estTimeToComplete';
         timeSpent := timeSpent';
         dueDateAndTime := JStr (isoString tv) |} :: post /\
    issued w' =
      issued w ++
      [ UpdateGoogleTask taskId taskListId' name' (JDate tv) (accessToken (self w));
        UpdateFirebaseTaskData (userEmail (self w)) taskId' name'
          priority' estTimeToComplete' timeSpent' false (JDate tv) ].
Proof.
  intros Hin Hnan.
  destruct (scan_present taskId' _ Hin) as (pre & tk & post & Harr & Hid & Hpre).
  exists pre, tk, post. eexists. split; [done|]. split; [done|]. split; [done|].
  split.
  { unfold updateTask. unfold bind at 1. unfold this at 1.
    unfold bind at 1. unfold emit at 1. unfold bind at 1. cbn [await].
    unfold ret at 1. unfold bind at 1. unfold emit at 1. unfold bind at 1.
    erewrite findTask_present; [|exact Harr|exact Hid|exact Hpre].
    unfold bind at 1. erewrite assign_middle by exact Harr.
    unfold set_taskArray at 1. unfold bind at 1. unfold lift at 1.
    cbn [toISOString]. rewrite Hnan.
    unfold bind at 1. erewrite assign_middle by reflexivity.
    unfold set_taskArray at 1.
    unfold bind at 1. erewrite assign_middle by reflexivity.
    unfold set_taskArray at 1.
    unfold bind at 1. erewrite assign_middle by reflexivity.
    unfold set_taskArray at 1.
    erewrite assign_middle by reflexivity.
    unfold set_taskArray at 1. reflexivity. }
  cbn. split; [done|]. by rewrite <- app_assoc.
Qed.

Lemma updateTask_present_witness :
  exists w',
    updateTask Sample.iso (Resolved "t1") "t1" "L1" "mist the fern"
      (JDate 1649235600000) (JStr "low") (JNum 2) (JNum 1) Sample.w2
      = (Return tt, w') /\
    taskArray (self w') =
      [ {| name := "mist the fern"; id := "t1"; taskListId := "L1";
           dueDay := None; priority := JStr "low";
           estTimeToComplete := JNum 2; timeSpent := JNum 1;
           dueDateAndTime := JStr "2022-04-06T09:00:00.000Z" |} ].
Proof.
  assert ("t1" ∈ ids (taskArray (self Sample.w2))) as Hin
    by (apply list_elem_of_In; left; reflexivity).
  destruct (updateTask_present Sample.iso "t1" "t1" "L1" "mist the fern"
              1649235600000 (JStr "low") (JNum 2) (JNum 1) Sample.w2 Hin eq_refl)
    as (pre & tk & post & w' & Harr & _ & _ & Hrun & Harr' & _).
  exists w'. split; [exact Hrun|].
  change (taskArray (self Sample.w2)) with [Sample.fern'] in Harr.
  destruct pre as [|x pre].
  - injection Harr as <- <-. exact Harr'.
  - destruct pre; discriminate Harr.
Defined.

(** C8, as the claim states it, fails: the list id passed to [updateTask]
    is not written to the record.  The record of list "L1" is updated with
    the list id "L2" and still belongs to "L1". *)
Lemma updateTask_keeps_taskListId :
  exists tk',
    taskArray
      (self (updateTask Sample.iso (Resolved "t1") "t1" "L2" "mist the fern"
               (JDate 1649235600000) (JStr "low") (JNum 2) (JNum 1)
               Sample.w2).2) = [tk'] /\
    id tk' = "t1" /\ taskListId tk' = "L1" /\ taskListId tk' <> "L2".
Proof.
  eexists. split; [reflexivity|]. split; [reflexivity|].
  split; [reflexivity | discriminate].
Qed.

(** When the id that comes back from the service is in no record, the
    first assignment is a TypeError: the method throws after both remote
    calls, and the records are as they were. *)
Lemma updateTask_absent isoString taskId' taskId taskListId' name' dueDate
    priority' estTimeToComplete' timeSpent' w :
  taskId' ∉ ids (taskArray (self w)) ->
  updateTask isoString (Resolved taskId') taskId taskListId' name' dueDate
    priority' estTimeToComplete' timeSpent' w =
  (Throw TypeError,
   {| self := self w;
      issued :=
        ((issued w ++
          [UpdateGoogleTask taskId taskListId' name' dueDate (accessToken (self w))]) ++
          [UpdateFirebaseTaskData (userEmail (self w)) taskId' name'
             priority' estTimeToComplete' timeSpent' false dueDate]) ++
          [ConsoleLog "Error: Did not find task"] |}).
Proof.
  intros Habs. unfold updateTask. unfold bind at 1. unfold this at 1.
  unfold bind at 1. unfold emit at 1. unfold bind at 1. cbn [await].
  unfold ret at 1. unfold bind at 1. unfold emit at 1. unfold bind at 1.
  rewrite findTask_absent by exact Habs.
  unfold bind at 1. rewrite assign_undefined. reflexivity.
Qed.

(** ** Unique ids *)

Lemma keeps_ids_bind {A B : Type} (m : M A) (k : A -> M B) :
  keeps_ids m -> (forall a, keeps_ids (k a)) -> keeps_ids (bind m k).
Proof.
  intros Hm Hk w c w'. unfold bind.
  destruct (m w) as [[a|e] w1] eqn:E; intros H.
  - apply Hk in H. apply Hm in E. congruence.
  - injection H as <- <-. by apply Hm in E.
Qed.

Lemma keeps_ids_ret {A : Type} (a : A) : keeps_ids (ret a).
Proof. intros w c w' [= <- <-]. done. Qed.

Lemma keeps_ids_throw {A : Type} e : keeps_ids (@throw A e).
Proof. intros w c w' [= <- <-]. done. Qed.

Lemma keeps_ids_this : keeps_ids this.
Proof. intros w c w' [= <- <-]. done. Qed.

Lemma keeps_ids_emit c : keeps_ids (emit c).
Proof. intros w c' w' [= <- <-]. done. Qed.

Lemma keeps_ids_await {A : Type} (p : settled A) : keeps_ids (await p).
Proof. destruct p; [apply keeps_ids_ret | apply keeps_ids_throw]. Qed.

Lemma keeps_ids_lift {A : Type} (c : completion A) : keeps_ids (lift c).
Proof. intros w c' w' [= <- <-]. done. Qed.

Lemma keeps_ids_findTask taskId : keeps_ids (findTask taskId).
Proof.
  unfold findTask. apply keeps_ids_bind; [apply keeps_ids_this|]. intros o.
  destruct (scan taskId (taskArray o) 0).
  - apply keeps_ids_ret.
  - apply keeps_ids_bind; [apply keeps_ids_emit | intros; apply keeps_ids_ret].
Qed.

(** An assignment to a field other than [id]. *)
Lemma keeps_ids_assign i f :
  (forall tk, id (f tk) = id tk) -> keeps_ids (assign i f).
Proof.
  intros Hf w c w'. unfold assign, bind, this.
  destruct (i ≫= _) as [tk|] eqn:Hi.
  - intros [= <- <-]. simpl. unfold ids. rewrite list_fmap_insert.
    destruct i as [n|]; [|done]. simpl in *.
    apply list_insert_id. rewrite list_lookup_fmap, Hi. simpl. by rewrite Hf.
  - intros [= <- <-]. done.
Qed.

Lemma keeps_ids_updateTask isoString reply taskId taskListId' name' dueDate
    priority' estTimeToComplete' timeSpent' :
  keeps_ids (updateTask isoString reply taskId taskListId' name' dueDate
               priority' estTimeToComplete' timeSpent').
Proof.
  unfold updateTask.
  repeat first
    [ apply keeps_ids_findTask
    | apply keeps_ids_assign; intros ?; reflexivity
    | apply keeps_ids_this | apply keeps_ids_emit | apply keeps_ids_await
    | apply keeps_ids_lift
    | apply keeps_ids_bind; [|intros ?] ].
Qed.

Lemma keeps_ids_getFirebaseData fb : keeps_ids (getFirebaseData fb).
Proof.
  intros w c w' Hrun. apply getFirebaseData_spec in Hrun as [Ht _].
  by apply touched_ids in Ht.
Qed.

(** The ids of the open records are ids the service reported, in order. *)
Lemma open_records_ids g : ids (open_records g) `sublist_of` reported_ids g.
Proof.
  unfold ids, open_records, reported_ids. rewrite <- list_fmap_compose.
  apply fmap_sublist, sublist_filter.
Qed.

(** Whatever the outcome, [completeTask] removes at most one record. *)
Lemma completeTask_sublist taskId w c w' :
  completeTask taskId w = (c, w') ->
  ids (taskArray (self w')) `sublist_of` ids (taskArray (self w)).
Proof.
  intros Hrun. destruct (decide (taskId ∈ ids (taskArray (self w)))) as [Hin|Hout].
  - destruct (scan_present taskId _ Hin) as (pre & tk & post & Harr & Hid & Hpre).
    destruct (completeTask_run_present taskId pre tk post w Harr Hid Hpre)
      as (w2 & Hrun2 & Harr2 & _).
    assert (w2 = w') as -> by congruence. rewrite Harr, Harr2.
    apply fmap_sublist, sublist_app; [done|]. by apply sublist_cons.
  - destruct (completeTask_absent taskId w Hout) as (w2 & Hrun2 & Harr2 & _).
    assert (w2 = w') as -> by congruence. rewrite Harr2.
    apply fmap_sublist, sublist_drop.
Qed.

(** Whatever the outcome, [createTask] appends at most the record with the
    id the service gave. *)
Lemma createTask_ids reply name' dueDate priority' estTimeToComplete' w c w' :
  createTask reply name' dueDate priority' estTimeToComplete' w = (c, w') ->
  ids (taskArray (self w')) = ids (taskArray (self w)) \/
  exists taskId, reply = Resolved taskId /\
    ids (taskArray (self w')) = ids (taskArray (self w)) ++ [taskId].
Proof.
  destruct reply as [taskId|reason]; intros Hrun.
  - right. exists taskId. split; [done|].
    rewrite createTask_run_resolved in Hrun. injection Hrun as _ <-.
    cbn [self taskArray]. unfold ids. by rewrite fmap_app.
  - left. rewrite createTask_run_rejected in Hrun. by injection Hrun as _ <-.
Qed.

(** C9. No two records of [taskArray] share an id, at every point between
    two method calls: a new object has no record, and every method, however
    it ends, keeps the ids distinct, provided the task-list service gives
    distinct ids to the tasks it reports ([getGoogleData], [initiate]) and
    gives a created task an id that no local record has yet ([createTask]). *)
Theorem unique_ids_preserved :
  (forall accessToken' userEmail',
     unique_ids {| self := new accessToken' userEmail'; issued := [] |}) /\
  (forall g w c w',
     NoDup (reported_ids g) -> unique_ids w ->
     getGoogleData g w = (c, w') -> unique_ids w') /\
  (forall fb w c w',
     unique_ids w -> getFirebaseData fb w = (c, w') -> unique_ids w') /\
  (forall g fb w c w',
     NoDup (reported_ids g) -> unique_ids w ->
     initiate g fb w = (c, w') -> unique_ids w') /\
  (forall reply name' dueDate priority' estTimeToComplete' w c w',
     (forall taskId, reply = Resolved taskId -> taskId ∉ ids (taskArray (self w))) ->
     unique_ids w ->
     createTask reply name' dueDate priority' estTimeToComplete' w = (c, w') ->
     unique_ids w') /\
  (forall isoString reply taskId taskListId' name' dueDate priority'
          estTimeToComplete' timeSpent' w c w',
     unique_ids w ->
     updateTask isoString reply taskId taskListId' name' dueDate priority'
       estTimeToComplete' timeSpent' w = (c, w') ->
     unique_ids w') /\
  (forall taskId w c w',
     unique_ids w -> completeTask taskId w = (c, w') -> unique_ids w').
Proof.
  assert (forall g w c w',
            NoDup (reported_ids g) -> unique_ids w ->
            getGoogleData g w = (c, w') -> unique_ids w') as Hgoogle.
  { intros g w c w' Hnd Hu Hrun. unfold unique_ids in *.
    apply getGoogleData_outcome in Hrun as [(_ & _ & ->)|(_ & ->)]; [|done].
    exact (sublist_NoDup _ _ Hnd (open_records_ids g)). }
  assert (forall fb w c w',
            unique_ids w -> getFirebaseData fb w = (c, w') -> unique_ids w')
    as Hfirebase.
  { intros fb w c w' Hu Hrun. unfold unique_ids in *.
    by rewrite (keeps_ids_getFirebaseData fb w c w' Hrun). }
  repeat split.
  - intros. apply NoDup_nil_2.
  - exact Hgoogle.
  - exact Hfirebase.
  - intros g fb w c w' Hnd Hu. unfold initiate. unfold bind at 1.
    destruct (getGoogleData g w) as [[[]|e] w1] eqn:Hg.
    + unfold bind at 1.
      destruct (getFirebaseData fb w1) as [[[]|e] w2] eqn:Hf.
      * intros [= <- <-]. eapply Hfirebase; [|exact Hf]. eapply Hgoogle; eauto.
      * intros [= <- <-]. eapply Hfirebase; [|exact Hf]. eapply Hgoogle; eauto.
    + intros [= <- <-]. eapply Hgoogle; eauto.
  - intros reply name' dueDate priority' estTimeToComplete' w c w' Hfresh Hu Hrun.
    unfold unique_ids in *.
    apply createTask_ids in Hrun as [-> | (taskId & Hreply & ->)]; [done|].
    apply NoDup_app. split; [done|]. split.
    + intros x Hx Hx'. apply list_elem_of_singleton in Hx' as ->.
      by apply (Hfresh taskId Hreply).
    + apply NoDup_singleton.
  - intros isoString reply taskId taskListId' name' dueDate priority'
           estTimeToComplete' timeSpent' w c w' Hu Hrun.
    unfold unique_ids in *.
    by rewrite (keeps_ids_updateTask _ _ _ _ _ _ _ _ _ w c w' Hrun).
  - intros taskId w c w' Hu Hrun. unfold unique_ids in *.
    exact (sublist_NoDup _ _ Hu (completeTask_sublist taskId w c w' Hrun)).
Qed.

Lemma unique_ids_preserved_witness :
  unique_ids (getGoogleData Sample.google Sample.w0).2 /\
  unique_ids (getFirebaseData Sample.firestore Sample.w1).2 /\
  unique_ids (initiate Sample.google Sample.firestore Sample.w0).2 /\
  unique_ids (createTask (Resolved "t3") "prune the rose" (JDate 1649235600000)
                (JStr "low") JNull Sample.w2).2 /\
  unique_ids (updateTask Sample.iso (Resolved "t1") "t1" "L1" "mist the fern"
                (JDate 1649235600000) (JStr "low") (JNum 2) (JNum 1) Sample.w2).2 /\
  unique_ids (completeTask "t1" Sample.w2).2.
Proof.
  destruct unique_ids_preserved as (Hnew & Hg & Hf & Hi & Hc & Hu & Hd).
  assert (NoDup (reported_ids Sample.google)) as Hnd
    by (apply (bool_decide_unpack _); vm_compute; exact I).
  assert (unique_ids Sample.w0) as H0 by apply (Hnew "token" "ada@example.org").
  assert (unique_ids Sample.w1) as H1
    by (apply (bool_decide_unpack _); vm_compute; exact I).
  assert (unique_ids Sample.w2) as H2
    by (apply (bool_decide_unpack _); vm_compute; exact I).
  repeat split.
  - by apply (Hg Sample.google Sample.w0
                (getGoogleData Sample.google Sample.w0).1).
  - by apply (Hf Sample.firestore Sample.w1
                (getFirebaseData Sample.firestore Sample.w1).1).
  - by apply (Hi Sample.google Sample.firestore Sample.w0
                (initiate Sample.google Sample.firestore Sample.w0).1).
  - apply (Hc (Resolved "t3") "prune the rose" (JDate 1649235600000)
             (JStr "low") JNull Sample.w2 (Return tt)); [|done|reflexivity].
    intros taskId [= <-]. apply (bool_decide_unpack _); vm_compute; exact I.
  - by apply (Hu Sample.iso (Resolved "t1") "t1" "L1" "mist the fern"
                (JDate 1649235600000) (JStr "low") (JNum 2) (JNum 1)
                Sample.w2 (Return tt)).
  - by apply (Hd "t1" Sample.w2 (Return tt)).
Defined.

End TaskDataProofs.

(** * Properties of the task viewer *)

Module ViewTaskModalProofs.
Import ViewTaskModal.
Local Open Scope float_scope.

(** ** Facts on binary64 numbers, from the specification of the primitives *)

Lemma is_zero_cases x : PrimFloat.is_zero x = true -> x = 0 \/ x = -0.
Proof.
  unfold PrimFloat.is_zero. rewrite FloatAxioms.eqb_spec. unfold SFeqb.
  destruct (Prim2SF x) as [s|s| |s m e] eqn:E.
  - intros _. destruct s; [right | left]; apply Prim2SF_inj; rewrite E; reflexivity.
  - destruct s; discriminate.
  - discriminate.
  - destruct s; discriminate.
Qed.

(** Subtracting [-0] where the code subtracts [0] changes at most the sign
    of a zero result. *)
Lemma sub_zero_sign e n :
  PrimFloat.is_zero n = true ->
  e - 0 = e - n \/ (e - 0 = -0 /\ e - n = 0).
Proof.
  intros Hz. destruct (is_zero_cases n Hz) as [-> | ->]; [by left|].
  destruct (Prim2SF e) as [s|s| |s m ex] eqn:E.
  - destruct s.
    + right. split; apply Prim2SF_inj; rewrite sub_spec, E; reflexivity.
    + left. apply Prim2SF_inj. rewrite !sub_spec, E. reflexivity.
  - left. apply Prim2SF_inj. rewrite !sub_spec, E. reflexivity.
  - left. apply Prim2SF_inj. rewrite !sub_spec, E. reflexivity.
  - left. apply Prim2SF_inj. rewrite !sub_spec, E. reflexivity.
Qed.

Lemma nonnegative_not_negative d : (0 <=? d) = true -> (d <? 0) = false.
Proof.
  rewrite leb_spec, ltb_spec. unfold SFleb, SFltb.
  destruct (Prim2SF d) as [s|s| |s m e]; simpl; try destruct s; done.
Qed.

Lemma nonnegative_eqb_refl d : (0 <=? d) = true -> (d =? d) = true.
Proof.
  rewrite leb_spec, FloatAxioms.eqb_spec. unfold SFleb, SFeqb.
  destruct (Prim2SF d) as [s|s| |s m e]; simpl; try destruct s; try done.
  intros _. by rewrite Z.compare_refl, Pcompare_refl.
Qed.

(** The clamp of lines 46-50, on the difference as the code computes it
    (with [newTimeSpent] parsed once more), against the difference itself. *)
Lemma clamp_spec est newTimeSpent :
  let d := est - (if PrimFloat.is_zero newTimeSpent then 0 else newTimeSpent) in
  let newTimeLeft := if d <? 0 then 0 else d in
  ((est - newTimeSpent <? 0) = true -> newTimeLeft = 0) /\
  ((0 <=? est - newTimeSpent) = true ->
     (newTimeLeft =? est - newTimeSpent) = true) /\
  (newTimeLeft <? 0) = false.
Proof.
  intros d newTimeLeft. subst d newTimeLeft. split; [|split].
  - destruct (PrimFloat.is_zero newTimeSpent) eqn:Hz.
    + destruct (sub_zero_sign est newTimeSpent Hz) as [-> | [_ ->]].
      * by intros ->.
      * discriminate.
    + by intros ->.
  - intros Hge. destruct (PrimFloat.is_zero newTimeSpent) eqn:Hz.
    + destruct (sub_zero_sign est newTimeSpent Hz) as [-> | [-> ->]].
      * rewrite (nonnegative_not_negative _ Hge).
        by apply nonnegative_eqb_refl.
      * reflexivity.
    + rewrite (nonnegative_not_negative _ Hge). by apply nonnegative_eqb_refl.
  - destruct (est - _ <? 0) eqn:E; [reflexivity | exact E].
Qed.

(** ** addTimeSpent *)

(** The two examples of the specification: an estimate of 10 hours with 12
    hours spent leaves 0, with 4 hours spent leaves 6. *)
Example addTimeSpent_overrun parse :
  (addTimeSpent parse
     {| task_of := {| id := "t1"; estTimeToComplete := JNum 10;
                      timeSpent := JNum 8; timeLeft := JNum 2 |};
        userEmail := "ada@example.org" |}
     {| completeTaskAnimationTime := 300; inputTimeSpent := JNum 4;
        displayTimeSpent := JNum 8; displayTimeLeft := JNum 2 |}).1
  = {| completeTaskAnimationTime := 300; inputTimeSpent := JNum 0;
       displayTimeSpent := JNum 12; displayTimeLeft := JNum 0 |}.
Proof. reflexivity. Qed.

Example addTimeSpent_within parse :
  (addTimeSpent parse
     {| task_of := {| id := "t1"; estTimeToComplete := JNum 10;
                      timeSpent := JNum 1.5; timeLeft := JNum 8.5 |};
        userEmail := "ada@example.org" |}
     {| completeTaskAnimationTime := 300; inputTimeSpent := JNum 2.5;
        displayTimeSpent := JNum 1.5; displayTimeLeft := JNum 8.5 |}).1
  = {| completeTaskAnimationTime := 300; inputTimeSpent := JNum 0;
       displayTimeSpent := JNum 4; displayTimeLeft := JNum 6 |}.
Proof. reflexivity. Qed.

(** One call of [addTimeSpent].  The time spent shown is the number
    [newTimeSpent], the time spent of the task the viewer was opened with
    plus the time entered, and the time left shown is the maximum of 0 and
    [est - newTimeSpent]: it is 0 when that difference is negative, it is
    that difference (the same number) when the difference is at least 0, and
    in no case is it negative.  The same [newTimeSpent] is what is sent to
    Firestore. *)
Theorem addTimeSpent_timeLeft parse p st :
  let est := parseFloat parse (estTimeToComplete (task_of p)) in
  let newTimeSpent :=
    parseFloat parse (timeSpent (task_of p)) + parseFloat parse (inputTimeSpent st) in
  let st' := (addTimeSpent parse p st).1 in
  displayTimeSpent st' = JNum newTimeSpent /\
  (addTimeSpent parse p st).2 =
    [UpdateTimeSpentInFirebase (userEmail p) (id (task_of p)) newTimeSpent] /\
  exists newTimeLeft,
    displayTimeLeft st' = JNum newTimeLeft /\
    ((est - newTimeSpent <? 0) = true -> newTimeLeft = 0) /\
    ((0 <=? est - newTimeSpent) = true ->
       (newTimeLeft =? est - newTimeSpent) = true) /\
    (newTimeLeft <? 0) = false.
Proof.
  intros est newTimeSpent st'. split; [reflexivity|]. split; [reflexivity|].
  eexists. split; [reflexivity|]. exact (clamp_spec est newTimeSpent).
Qed.

Lemma addTimeSpent_timeLeft_witness :
  exists st',
    (addTimeSpent (fun _ => nan)
       {| task_of := {| id := "t1"; estTimeToComplete := JNum 10;
                        timeSpent := JNum 8; timeLeft := JNum 2 |};
          userEmail := "ada@example.org" |}
       {| completeTaskAnimationTime := 300; inputTimeSpent := JNum 4;
          displayTimeSpent := JNum 8; displayTimeLeft := JNum 2 |}).1 = st' /\
    displayTimeSpent st' = JNum 12 /\ displayTimeLeft st' = JNum 0.
Proof.
  eexists. split; [reflexivity|].
  destruct (addTimeSpent_timeLeft (fun _ => nan)
       {| task_of := {| id := "t1"; estTimeToComplete := JNum 10;
                        timeSpent := JNum 8; timeLeft := JNum 2 |};
          userEmail := "ada@example.org" |}
       {| completeTaskAnimationTime := 300; inputTimeSpent := JNum 4;
          displayTimeSpent := JNum 8; displayTimeLeft := JNum 2 |})
    as (Hspent & _ & L & Hleft & Hneg & _ & _).
  split; [exact Hspent|].
  rewrite Hleft. f_equal. apply Hneg. reflexivity.
Defined.

(** C3, on the code.  The time spent before a submit is the time the viewer
    shows and Firestore holds, but [addTimeSpent] adds the entry to the time
    spent of the task it was opened with (the call of the task's own handler,
    line 38, is commented out).  On a task of 10 hours with 4 spent, a
    submit of 7 shows 11 spent and 0 left, and a further submit of 3 then
    shows 7 spent and 3 left, and sends 7 to Firestore, where 14 spent and 0
    left are due. *)
Theorem addTimeSpent_second_submit :
  let st1 :=
    (addTimeSpent Sample3.parse Sample3.shown
       (onChangeText "7" Sample3.opened)).1 in
  let second :=
    addTimeSpent Sample3.parse Sample3.shown (onChangeText "3" st1) in
  displayTimeSpent st1 = JNum 11 /\ displayTimeLeft st1 = JNum 0 /\
  displayTimeSpent second.1 = JNum 7 /\ displayTimeLeft second.1 = JNum 3 /\
  second.2 = [UpdateTimeSpentInFirebase "ada@example.org" "t1" 7].
Proof. repeat split; reflexivity. Qed.

End ViewTaskModalProofs.

(** * Further properties of TaskData *)

Module TaskDataMore.
Import TaskData TaskDataProofs.

(** ** getGoogleData: failure and the calls it issues *)

Lemma fetch_items_throws {A : Type} url (r : G.response A) w e w' :
  fetch_items url r w = (Throw e, w') -> e = TypeError.
Proof.
  unfold fetch_items, bind, this, emit, throw, ret.
  destruct r as [reason|[items|]]; simpl; intros [= <- <-]; done.
Qed.

Lemma lists_loop_throws g (items : list G.tasklist) acc w e w' :
  lists_loop g items acc w = (Throw e, w') -> e = TypeError.
Proof.
  revert acc w. induction items as [|l items IH]; intros acc w; cbn [lists_loop].
  - intros [= <- <-].
  - unfold bind at 1.
    destruct (fetch_items _ _ w) as [[ts|e1] w1] eqn:F.
    + apply IH.
    + intros [= <- <-]. by apply fetch_items_throws in F.
Qed.

Lemma getGoogleData_throws g w e w' :
  getGoogleData g w = (Throw e, w') -> e = TypeError.
Proof.
  unfold getGoogleData. unfold bind at 1.
  destruct (fetch_items lists_url (G.lists g) w) as [[ls|e1] w1] eqn:F.
  - unfold bind at 1.
    destruct (lists_loop g ls ([], 0) w1) as [[acc|e2] w2] eqn:L.
    + intros [= <- <-].
    + intros [= <- <-]. by apply lists_loop_throws in L.
  - intros [= <- <-]. by apply fetch_items_throws in F.
Qed.

(** X1. [getGoogleData] returns exactly when the fetch of the lists and the
    fetch of the tasks of every list are answered with items.  When one is
    not (a failed request, or a body without [items]), the method throws a
    TypeError and the object is as it was: the tasks loaded before stay in
    [taskArray]. *)
Theorem getGoogleData_all_or_nothing g w :
  (answered g <-> exists w', getGoogleData g w = (Return tt, w')) /\
  (~ answered g ->
   exists w', getGoogleData g w = (Throw TypeError, w') /\ self w' = self w).
Proof.
  split; [split|].
  - intros Hans. destruct (getGoogleData_answered g w Hans) as (w' & Hrun & _).
    eauto.
  - intros [w' Hrun].
    apply getGoogleData_outcome in Hrun as [(_ & Hans & _)|([e He] & _)];
      [done | discriminate].
  - intros Hno. destruct (getGoogleData g w) as [[[]|e] w'] eqn:Hrun.
    + destruct Hno.
      apply getGoogleData_outcome in Hrun as [(_ & Hans & _)|([e He] & _)];
        [done | discriminate].
    + pose proof (getGoogleData_throws g w e w' Hrun) as ->.
      exists w'. split; [done|].
      apply getGoogleData_outcome in Hrun as [(Hc & _)|(_ & Hself)];
        [discriminate | done].
Qed.

Lemma getGoogleData_all_or_nothing_witness :
  exists w',
    getGoogleData Sample2.offline Sample.w1 = (Throw TypeError, w') /\
    taskArray (self w') = [Sample.fern].
Proof.
  destruct (getGoogleData_all_or_nothing Sample2.offline Sample.w1) as [_ Hfail].
  destruct Hfail as (w' & Hrun & Hself).
  - intros (ls & Hls & _). discriminate Hls.
  - exists w'. split; [exact Hrun|]. rewrite Hself. reflexivity.
Defined.

Lemma fetch_items_issued {A : Type} url (r : G.response A) w c w' :
  fetch_items url r w = (c, w') ->
  exists new, issued w' = issued w ++ new /\ Forall is_google_read new /\
    (forall items, c = Return items -> new = [Fetch url (accessToken (self w))]).
Proof.
  unfold fetch_items, bind, this, emit, throw, ret.
  destruct r as [reason|[items|]]; simpl; intros [= <- <-]; simpl.
  - eexists. rewrite <- app_assoc. split; [reflexivity|].
    split; [repeat constructor | discriminate].
  - eexists. split; [reflexivity|]. split; [repeat constructor | done].
  - eexists. split; [reflexivity|]. split; [repeat constructor | discriminate].
Qed.

Lemma lists_loop_issued g (items : list G.tasklist) acc w c w' :
  lists_loop g items acc w = (c, w') ->
  exists new, issued w' = issued w ++ new /\ Forall is_google_read new /\
    (forall acc', c = Return acc' ->
       new = fetch_of (accessToken (self w)) <$> items).
Proof.
  revert acc w. induction items as [|l items IH]; intros acc w; cbn [lists_loop].
  - intros [= <- <-]. exists []. rewrite app_nil_r. done.
  - unfold bind at 1.
    destruct (fetch_items _ _ w) as [[ts|e1] w1] eqn:F.
    + pose proof (fetch_items_self _ _ _ _ _ F) as Hself.
      apply fetch_items_issued in F as (new1 & H1 & Hr1 & Hx1).
      intros Hrun. apply IH in Hrun as (new2 & H2 & Hr2 & Hx2).
      exists (new1 ++ new2). rewrite H2, H1, <- app_assoc. split; [done|].
      split; [by apply Forall_app|].
      intros acc' Hc. rewrite (Hx1 ts eq_refl), (Hx2 acc' Hc), Hself. done.
    + intros [= <- <-].
      apply fetch_items_issued in F as (new1 & H1 & Hr1 & _).
      exists new1. done.
Qed.

(** X2. [getGoogleData] only reads: however it ends, the calls it adds are
    fetches and log lines, never a write to Google Tasks and never a call
    to Firestore.  A run that returns has issued the fetch of the lists and
    then one fetch per list, in the order of the lists, each with the
    access token. *)
Theorem getGoogleData_reads_only g w c w' :
  getGoogleData g w = (c, w') ->
  exists new,
    issued w' = issued w ++ new /\
    Forall is_google_read new /\
    (c = Return tt ->
     exists ls, G.lists g = G.Json (Some ls) /\
       new = Fetch lists_url (accessToken (self w)) ::
             (fetch_of (accessToken (self w)) <$> ls)).
Proof.
  unfold getGoogleData. unfold bind at 1.
  destruct (fetch_items lists_url (G.lists g) w) as [[ls|e1] w1] eqn:F.
  - assert (G.lists g = G.Json (Some ls)) as Hls.
    { destruct (G.lists g) as [reason|[ls'|]]; cbv in F; congruence. }
    pose proof (fetch_items_self _ _ _ _ _ F) as Hself.
    apply fetch_items_issued in F as (new1 & H1 & Hr1 & Hx1).
    unfold bind at 1.
    destruct (lists_loop g ls ([], 0) w1) as [[acc|e2] w2] eqn:L;
      apply lists_loop_issued in L as (new2 & H2 & Hr2 & Hx2).
    + intros [= <- <-]. exists (new1 ++ new2). simpl.
      rewrite H2, H1, <- app_assoc. split; [done|].
      split; [by apply Forall_app|]. intros _. exists ls. split; [done|].
      rewrite (Hx1 ls eq_refl), (Hx2 acc eq_refl), Hself. done.
    + intros [= <- <-]. exists (new1 ++ new2).
      rewrite H2, H1, <- app_assoc. split; [done|].
      split; [by apply Forall_app | discriminate].
  - intros [= <- <-].
    apply fetch_items_issued in F as (new1 & H1 & Hr1 & _).
    exists new1. split; [done|]. split; [done | discriminate].
Qed.

Lemma getGoogleData_reads_only_witness :
  issued (getGoogleData Sample.google Sample.w0).2 =
    [ Fetch "https://www.googleapis.com/tasks/v1/users/@me/lists" "token";
      Fetch "https://www.googleapis.com/tasks/v1/lists/L1/tasks" "token" ].
Proof.
  destruct (getGoogleData_reads_only Sample.google Sample.w0 (Return tt)
              (getGoogleData Sample.google Sample.w0).2 eq_refl)
    as (new & Hissued & _ & Hnew).
  destruct (Hnew eq_refl) as (ls & Hls & ->).
  injection Hls as <-. exact Hissued.
Defined.

(** ** getFirebaseData: when it returns, where it stops, what it issues *)

Lemma enriched_readable fb tk tk' : enriched fb tk tk' -> readable fb tk.
Proof.
  intros (d & Hfb & Hm). exists d. split; [done|].
  apply merge_Return in Hm as (doc & [= <-] & _ & _ & _ & _ & _ & _ & _ & Hyes & _).
  intros Ht. destruct (Hyes Ht) as (day & -> & _). eauto.
Qed.

(** X3. [getFirebaseData] returns exactly when the loop body goes through
    on every record: the read of its document resolves with data, and its
    document has no time of day unless the record has a due day. *)
Theorem getFirebaseData_returns_iff fb w :
  (exists w', getFirebaseData fb w = (Return tt, w')) <->
  Forall (readable fb) (taskArray (self w)).
Proof.
  split.
  - intros [w' Hrun]. apply getFirebaseData_spec in Hrun as [_ Hall].
    specialize (Hall eq_refl).
    induction Hall as [|tk tk' arr arr' He _ IH]; constructor; [|done].
    by eapply enriched_readable.
  - apply getFirebaseData_returns.
Qed.

Lemma getFirebaseData_returns_iff_witness :
  (exists w', getFirebaseData Sample.firestore Sample.w1 = (Return tt, w')) /\
  ~ (exists w', getFirebaseData Sample2.firestore_t1 Sample2.w3 = (Return tt, w')).
Proof.
  split.
  - apply (getFirebaseData_returns_iff Sample.firestore Sample.w1).
    constructor; [|constructor].
    eexists. split; [reflexivity|]. intros _. by eexists.
  - intros Hret.
    apply (getFirebaseData_returns_iff Sample2.firestore_t1 Sample2.w3) in Hret.
    apply Forall_cons in Hret as [_ Hret]. apply Forall_cons in Hret as [Hficus _].
    destruct Hficus as (d & Hd & _). discriminate Hd.
Defined.

(** The loop stops at the first record it cannot process: the records
    before it are enriched, that record and the later ones are untouched. *)
Lemma merge_loop_stops fb : forall pre fuel done tk post w,
  taskArray (self w) = done ++ pre ++ tk :: post ->
  Forall (readable fb) pre -> ~ readable fb tk ->
  length pre < fuel ->
  exists e pre' w',
    merge_loop fb fuel (length done) w = (Throw e, w') /\
    taskArray (self w') = done ++ pre' ++ tk :: post /\
    Forall2 (enriched fb) pre pre'.
Proof.
  induction pre as [|x pre IH]; intros fuel done tk post w Harr Hpre Htk Hfuel;
    (destruct fuel as [|fuel]; [simpl in Hfuel; lia|]); cbn [merge_loop].
  - unfold bind at 1. unfold this at 1. rewrite Harr. simpl.
    rewrite list_lookup_middle by done.
    unfold bind at 1. unfold emit at 1. unfold bind at 1.
    destruct (fb (id tk)) as [d|r] eqn:Hfb; cbn [await].
    + unfold ret at 1. unfold bind at 1. unfold lift at 1.
      destruct (merge tk d) as [tk'|e] eqn:Hm.
      * destruct Htk. apply enriched_readable with tk'.
        destruct (merge_Return _ _ _ Hm) as (doc & -> & _). by exists doc.
      * exists e, []. eexists. split; [reflexivity|]. simpl. split; [done|constructor].
    + unfold throw at 1. exists (Rejection r), []. eexists.
      split; [reflexivity|]. simpl. split; [done|constructor].
  - apply Forall_cons in Hpre as [Hx Hpre].
    destruct (merge_readable fb x Hx) as (x' & d & Hfb & Hm).
    unfold bind at 1. unfold this at 1. rewrite Harr. simpl.
    rewrite list_lookup_middle by done.
    unfold bind at 1. unfold emit at 1. unfold bind at 1.
    rewrite Hfb. cbn [await]. unfold ret at 1.
    unfold bind at 1. unfold lift at 1. rewrite Hm.
    unfold bind at 1. unfold set_taskArray at 1.
    replace (S (length done)) with (length (done ++ [x']))
      by (rewrite length_app; simpl; lia).
    edestruct (IH fuel (done ++ [x']) tk post) as (e & pre' & w' & Hrun & Harr' & Hall);
      [| exact Hpre | exact Htk | simpl in Hfuel; lia |].
    2:{ exists e, (x' :: pre'), w'. split; [exact Hrun|]. split.
        - rewrite Harr', <- app_assoc. done.
        - constructor; [by exists d | done]. }
    simpl. rewrite insert_app_r_alt by lia.
    replace (length done - length done) with 0 by lia. simpl.
    by rewrite <- app_assoc.
Qed.

(** X4. When the records before some record can all be processed and that
    record cannot (its read rejects, it has no document, or its document has
    a time of day and the record no due day), [getFirebaseData] throws and
    leaves the collection half merged: the records before are enriched,
    that record and all the later ones are as they were. *)
Theorem getFirebaseData_stops_midway fb w pre tk post :
  taskArray (self w) = pre ++ tk :: post ->
  Forall (readable fb) pre -> ~ readable fb tk ->
  exists e pre' w',
    getFirebaseData fb w = (Throw e, w') /\
    taskArray (self w') = pre' ++ tk :: post /\
    Forall2 (enriched fb) pre pre'.
Proof.
  intros Harr Hpre Htk. unfold getFirebaseData. unfold bind at 1.
  unfold this at 1. unfold bind at 1.
  destruct (init_loop_self (userEmail (self w)) (taskArray (self w)) w)
    as (w1 & -> & Hw1).
  rewrite Harr.
  apply (merge_loop_stops fb pre _ [] tk post w1); [| done | done |].
  - by rewrite Hw1.
  - rewrite length_app. simpl. lia.
Qed.

Lemma getFirebaseData_stops_midway_witness :
  exists e w',
    getFirebaseData Sample2.firestore_t1 Sample2.w3 = (Throw e, w') /\
    taskArray (self w') = [Sample.fern'; Sample2.ficus].
Proof.
  destruct (getFirebaseData_stops_midway Sample2.firestore_t1 Sample2.w3
              [Sample.fern] Sample2.ficus [] eq_refl)
    as (e & pre' & w' & Hrun & Harr & Hall).
  - constructor; [|constructor].
    eexists. split; [reflexivity|]. intros _. by eexists.
  - intros (d & Hd & _). discriminate Hd.
  - exists e, w'. split; [exact Hrun|]. rewrite Harr.
    apply Forall2_cons_inv_l in Hall as (x' & rest & (d & Hd & Hm) & Hrest & ->).
    apply Forall2_nil_inv_l in Hrest as ->.
    injection Hd as <-. injection Hm as <-. reflexivity.
Defined.

(** X5. [getFirebaseData] is not to be run twice on the same records: the
    first run deletes [dueDay], so a second run, with Firestore answering
    the same, throws as soon as a document has a time of day, and where it
    does return, every due date is gone ([dueDateAndTime] is undefined). *)
Theorem getFirebaseData_twice fb w w1 :
  getFirebaseData fb w = (Return tt, w1) ->
  forall c w2, getFirebaseData fb w1 = (c, w2) ->
    (c = Return tt ->
     Forall (fun tk => dueDateAndTime tk = JUndefined) (taskArray (self w2)) /\
     Forall (fun tk => exists doc, fb (id tk) = Resolved (Some doc) /\
                                   truthy (Fb.dueTime doc) = false)
            (taskArray (self w))) /\
    ((exists tk doc, tk ∈ taskArray (self w) /\
                     fb (id tk) = Resolved (Some doc) /\
                     truthy (Fb.dueTime doc) = true) ->
     exists e, c = Throw e).
Proof.
  intros Hrun1 c w2 Hrun2.
  apply getFirebaseData_spec in Hrun1 as [_ H1]. specialize (H1 eq_refl).
  apply getFirebaseData_spec in Hrun2 as [_ H2].
  assert (c = Return tt ->
     Forall (fun tk => dueDateAndTime tk = JUndefined) (taskArray (self w2)) /\
     Forall (fun tk => exists doc, fb (id tk) = Resolved (Some doc) /\
                                   truthy (Fb.dueTime doc) = false)
            (taskArray (self w))) as Hret.
  { intros Hc. specialize (H2 Hc). clear Hc.
    revert H2. generalize (taskArray (self w2)).
    induction H1 as [|tk tk1 arr arr1 He1 _ IH]; intros arr2 H2.
    - apply Forall2_nil_inv_l in H2 as ->. split; constructor.
    - apply Forall2_cons_inv_l in H2 as (tk2 & rest & He2 & Hrest & ->).
      destruct (IH rest Hrest) as [IH1 IH2].
      destruct He1 as (d1 & Hfb1 & Hm1), He2 as (d2 & Hfb2 & Hm2).
      apply merge_Return in Hm1
        as (doc1 & [= <-] & _ & Hid & _ & Hday & _).
      apply merge_Return in Hm2
        as (doc2 & [= <-] & _ & _ & _ & _ & _ & _ & _ & Hyes & Hno).
      rewrite Hid in Hfb2.
      destruct (truthy (Fb.dueTime d2)) eqn:Ht.
      + destruct (Hyes eq_refl) as (day & Hd & _). congruence.
      + split; constructor; try done.
        * rewrite (Hno eq_refl), Hday. done.
        * exists d2. done. }
  split; [exact Hret|].
  intros (tk & doc & Hin & Hfb & Ht).
  destruct c as [[]|e]; [|eauto].
  destruct (Hret eq_refl) as [_ Hall].
  rewrite Forall_forall in Hall.
  destruct (Hall tk Hin) as (doc' & Hfb' & Ht'). congruence.
Qed.

Lemma getFirebaseData_twice_witness :
  (exists e w2,
     getFirebaseData Sample.firestore
       (getFirebaseData Sample.firestore Sample.w1).2 = (Throw e, w2)) /\
  Forall (fun tk => dueDateAndTime tk = JUndefined)
    (taskArray (self
       (getFirebaseData Sample2.firestore_plain
          (getFirebaseData Sample2.firestore_plain Sample.w1).2).2)).
Proof.
  split.
  - destruct (getFirebaseData_twice Sample.firestore Sample.w1
                (getFirebaseData Sample.firestore Sample.w1).2 eq_refl
                (getFirebaseData Sample.firestore
                   (getFirebaseData Sample.firestore Sample.w1).2).1
                (getFirebaseData Sample.firestore
                   (getFirebaseData Sample.firestore Sample.w1).2).2 eq_refl)
      as [_ Hthrow].
    destruct Hthrow as [e He].
    + exists Sample.fern. eexists. split; [left|]. split; reflexivity.
    + exists e. eexists. rewrite <- He. reflexivity.
  - destruct (getFirebaseData_twice Sample2.firestore_plain Sample.w1
                (getFirebaseData Sample2.firestore_plain Sample.w1).2 eq_refl
                (Return tt)
                (getFirebaseData Sample2.firestore_plain
                   (getFirebaseData Sample2.firestore_plain Sample.w1).2).2 eq_refl)
      as [Hret _].
    exact (proj1 (Hret eq_refl)).
Defined.





(** ** initiate *)

(** X7. The whole load.  When Google Tasks answers every fetch and the
    document of every open task can be read and merged, [initiate] returns
    [taskArray], which holds one record per open task, in the order the
    service reported them: the record has the task's title, id and list, the
    priority, estimate and time spent of the task's document, and the due
    date merged from the two. *)
Theorem initiate_merges g fb w :
  answered g ->
  Forall (readable fb) (open_records g) ->
  exists arr w',
    initiate g fb w = (Return arr, w') /\
    taskArray (self w') = arr /\
    Forall2 (fun p tk =>
               name tk = G.title p.2 /\ id tk = G.id p.2 /\ taskListId tk = p.1 /\
               exists doc,
                 fb (G.id p.2) = Resolved (Some doc) /\
                 priority tk = Fb.priority doc /\
                 estTimeToComplete tk = Fb.estTimeToComplete doc /\
                 timeSpent tk = Fb.timeSpent doc /\
                 due_merged doc (record_of p) tk)
            (filter is_open (reported g)) arr.
Proof.
  intros Hans Hread.
  destruct (getGoogleData_answered g w Hans) as (w1 & Hrun1 & Harr1).
  rewrite <- Harr1 in Hread.
  destruct (getFirebaseData_returns fb w1 Hread) as (w2 & Hrun2).
  exists (taskArray (self w2)), w2. split; [|split; [done|]].
  - unfold initiate. unfold bind at 1. rewrite Hrun1.
    unfold bind at 1. rewrite Hrun2. reflexivity.
  - apply getFirebaseData_spec in Hrun2 as [_ Hall]. specialize (Hall eq_refl).
    rewrite Harr1 in Hall. unfold open_records in Hall.
    rewrite Forall2_fmap_l in Hall.
    eapply Forall2_impl; [exact Hall|]. intros p tk He. simpl in He.
    destruct (enriched_due_merged _ _ _ He) as (doc & Hdoc & Hdue).
    destruct He as (d & Hd & Hm).
    assert (d = doc) as -> by congruence.
    apply merge_Return in Hm
      as (doc' & [= <-] & Hn & Hi & Hl & _ & Hp & He & Hs & _).
    repeat split; try done. exists doc. done.
Qed.

Lemma initiate_merges_witness :
  exists w',
    initiate Sample.google Sample.firestore Sample.w0 =
      (Return
         [ {| name := "water the fern"; id := "t1"; taskListId := "L1";
              dueDay := None; priority := JStr "high";
              estTimeToComplete := JNum 10; timeSpent := JNum 4;
              dueDateAndTime := JStr "2022-04-05T17:23:42" |} ], w').
Proof.
  destruct (initiate_merges Sample.google Sample.firestore Sample.w0)
    as (arr & w' & Hrun & _ & _).
  - exists [ {| G.list_id := "L1" |} ]. split; [reflexivity|].
    intros l _. eexists. reflexivity.
  - constructor; [|constructor].
    eexists. split; [reflexivity|]. intros _. by eexists.
  - exists w'. rewrite Hrun. f_equal. f_equal.
    assert (Return arr = (initiate Sample.google Sample.firestore Sample.w0).1)
      as E by (rewrite Hrun; reflexivity).
    injection E as ->. reflexivity.
Defined.

(** X8. When a fetch of Google Tasks is not answered, [initiate] stops
    where [getGoogleData] stops: it throws the TypeError, Firestore is not
    called at all and the object is as it was. *)
Theorem initiate_unanswered g fb w :
  ~ answered g ->
  exists w',
    getGoogleData g w = (Throw TypeError, w') /\
    initiate g fb w = (Throw TypeError, w') /\
    self w' = self w.
Proof.
  intros Hno. destruct (getGoogleData g w) as [[[]|e] w'] eqn:Hrun.
  - destruct Hno.
    apply getGoogleData_outcome in Hrun as [(_ & Hans & _)|([e He] & _)];
      [done | discriminate].
  - pose proof (getGoogleData_throws g w e w' Hrun) as ->.
    exists w'. split; [done|]. split.
    + unfold initiate. unfold bind at 1. rewrite Hrun. reflexivity.
    + apply getGoogleData_outcome in Hrun as [(Hc & _)|(_ & Hself)];
        [discriminate | done].
Qed.

Lemma initiate_unanswered_witness :
  exists w',
    initiate Sample2.offline Sample.firestore Sample.w1 = (Throw TypeError, w') /\
    taskArray (self w') = [Sample.fern] /\
    issued w' =
      [ Fetch "https://www.googleapis.com/tasks/v1/users/@me/lists" "token";
        ConsoleLog "error message: TypeError: Network request failed" ].
Proof.
  destruct (initiate_unanswered Sample2.offline Sample.firestore Sample.w1)
    as (w' & Hg & Hrun & Hself).
  - intros (ls & Hls & _). discriminate Hls.
  - exists w'. split; [exact Hrun|]. split.
    + rewrite Hself. reflexivity.
    + injection Hg as <-. reflexivity.
Defined.

(** ** findTask, completeTask, createTask *)

(** X9. [findTask] never throws and never changes the object.  It yields
    the index of the first record with the given id, without a log line,
    when there is one; it logs one error line and yields [undefined] exactly
    when no record has the id. *)
Theorem findTask_first taskId w :
  exists r w',
    findTask taskId w = (Return r, w') /\ self w' = self w /\
    match r with
    | Some i =>
        issued w' = issued w /\
        exists pre tk post,
          taskArray (self w) = pre ++ tk :: post /\ length pre = i /\
          id tk = taskId /\ taskId ∉ ids pre
    | None =>
        (taskId ∉ ids (taskArray (self w))) /\
        issued w' = issued w ++ [ConsoleLog "Error: Did not find task"]
    end.
Proof.
  destruct (decide (taskId ∈ ids (taskArray (self w)))) as [Hin|Hout].
  - destruct (scan_present taskId _ Hin) as (pre & tk & post & Harr & Hid & Hpre).
    exists (Some (length pre)), w.
    rewrite (findTask_present taskId pre tk post w Harr Hid Hpre).
    split; [done|]. split; [done|]. split; [done|]. by exists pre, tk, post.
  - eexists None, _. rewrite (findTask_absent taskId w Hout).
    split; [done|]. split; [done|]. done.
Qed.

(** X10. [completeTask] with an id that is in no record does not fail: both
    remote calls are issued for that id, the error line is logged, and the
    first record of the collection, whatever its id, is removed (an empty
    collection stays empty). *)
Theorem completeTask_missing taskId w :
  taskId ∉ ids (taskArray (self w)) ->
  exists w',
    completeTask taskId w = (Return tt, w') /\
    taskArray (self w') = drop 1 (taskArray (self w)) /\
    issued w' =
      issued w ++
      [ SetTaskCompleteInFirebase (userEmail (self w)) taskId true;
        CompleteGoogleTask taskId JUndefined (accessToken (self w));
        ConsoleLog "Error: Did not find task" ].
Proof. apply completeTask_absent. Qed.

Lemma completeTask_missing_witness :
  exists w',
    completeTask "t9" Sample2.w4 = (Return tt, w') /\
    taskArray (self w') = [Sample2.ficus'].
Proof.
  destruct (completeTask_missing "t9" Sample2.w4) as (w' & Hrun & Harr & _).
  - apply (bool_decide_unpack _). vm_compute. exact I.
  - exists w'. split; [exact Hrun | exact Harr].
Defined.

(** X11. Completing the same task twice removes two records.  With
    distinct ids, the first call removes the task's record and the second
    call, which no longer finds the id, removes the first record that is
    left. *)
Theorem completeTask_twice taskId w :
  unique_ids w ->
  taskId ∈ ids (taskArray (self w)) ->
  exists pre tk post w1 w2,
    taskArray (self w) = pre ++ tk :: post /\ id tk = taskId /\
    completeTask taskId w = (Return tt, w1) /\
    taskArray (self w1) = pre ++ post /\
    completeTask taskId w1 = (Return tt, w2) /\
    taskArray (self w2) = drop 1 (pre ++ post).
Proof.
  intros Hu Hin.
  destruct (scan_present taskId _ Hin) as (pre & tk & post & Harr & Hid & Hpre).
  destruct (completeTask_run_present taskId pre tk post w Harr Hid Hpre)
    as (w1 & Hrun1 & Harr1 & _).
  assert (taskId ∉ ids (taskArray (self w1))) as Hgone.
  { unfold unique_ids, ids in Hu. rewrite Harr, fmap_app, fmap_cons in Hu.
    apply NoDup_app in Hu as (_ & _ & Hpost). apply NoDup_cons in Hpost as [Hpost _].
    rewrite Harr1. unfold ids in *. rewrite fmap_app, elem_of_app.
    intros [Hp|Hp]; [done|]. by rewrite Hid in Hpost. }
  destruct (completeTask_absent taskId w1 Hgone) as (w2 & Hrun2 & Harr2 & _).
  exists pre, tk, post, w1, w2. rewrite <- Harr1. done.
Qed.

Lemma completeTask_twice_witness :
  exists w1 w2,
    completeTask "t1" Sample2.w4 = (Return tt, w1) /\
    completeTask "t1" w1 = (Return tt, w2) /\
    taskArray (self w2) = [].
Proof.
  destruct (completeTask_twice "t1" Sample2.w4)
    as (pre & tk & post & w1 & w2 & Harr & Hid & Hrun1 & Harr1 & Hrun2 & Harr2).
  - apply (bool_decide_unpack _). vm_compute. exact I.
  - apply list_elem_of_In. left. reflexivity.
  - exists w1, w2. split; [exact Hrun1|]. split; [exact Hrun2|].
    change (taskArray (self Sample2.w4)) with [Sample.fern'; Sample2.ficus'] in Harr.
    rewrite Harr2.
    destruct pre as [|x pre].
    + injection Harr as _ <-. reflexivity.
    + injection Harr as _ Harr. destruct pre as [|y pre].
      * injection Harr as <- _. discriminate Hid.
      * injection Harr as _ Harr. by destruct pre.
Defined.

(** X12. Creating a task and completing it again gives back the collection
    as it was, when the id the service gave is new to the collection. *)
Theorem createTask_completeTask taskId name' dueDate priority' estTimeToComplete' w :
  taskId ∉ ids (taskArray (self w)) ->
  exists w1 w2,
    createTask (Resolved taskId) name' dueDate priority' estTimeToComplete' w =
      (Return tt, w1) /\
    completeTask taskId w1 = (Return tt, w2) /\
    taskArray (self w2) = taskArray (self w).
Proof.
  intros Hfresh.
  pose proof (createTask_run_resolved taskId name' dueDate priority'
                estTimeToComplete' w) as Hcreate.
  match type of Hcreate with _ = (_, ?W) => set (w1 := W) in * end.
  destruct (completeTask_run_present taskId (taskArray (self w))
              {| name := name'; id := taskId; taskListId := "@default";
                 dueDay := None; priority := priority';
                 estTimeToComplete := estTimeToComplete';
                 timeSpent := JNum 0; dueDateAndTime := dueDate |} [] w1)
    as (w2 & Hrun & Harr & _); [reflexivity | reflexivity | exact Hfresh |].
  exists w1, w2. split; [exact Hcreate|]. split; [exact Hrun|].
  by rewrite Harr, app_nil_r.
Qed.

Lemma createTask_completeTask_witness :
  exists w1 w2,
    createTask (Resolved "t3") "prune the rose" (JDate 1649235600000)
      (JStr "low") JNull Sample2.w4 = (Return tt, w1) /\
    completeTask "t3" w1 = (Return tt, w2) /\
    taskArray (self w2) = [Sample.fern'; Sample2.ficus'].
Proof.
  apply (createTask_completeTask "t3" "prune the rose" (JDate 1649235600000)
           (JStr "low") JNull Sample2.w4).
  apply (bool_decide_unpack _). vm_compute. exact I.
Defined.

(** ** updateTask *)

(** The run of [updateTask] on the first record with the returned id, up to
    the call of [toISOString] and past it. *)
Lemma updateTask_run isoString taskId' taskId taskListId' name' dueDate
    priority' estTimeToComplete' timeSpent' pre tk post w :
  taskArray (self w) = pre ++ tk :: post ->
  id tk = taskId' -> taskId' ∉ ids pre ->
  exists w',
    updateTask isoString (Resolved taskId') taskId taskListId' name' dueDate
      priority' estTimeToComplete' timeSpent' w =
      (match toISOString isoString dueDate with
       | Return _ => Return tt
       | Throw e => Throw e
       end, w') /\
    taskArray (self w') =
      pre ++
      match toISOString isoString dueDate with
      | Return iso =>
          {| name := name'; id := id tk; taskListId := taskListId tk;
             dueDay := dueDay tk; priority := priority';
             estTimeToComplete := estTimeToComplete';
             timeSpent := timeSpent';
             dueDateAndTime := JStr iso |}
      | Throw _ => with_name name' tk
      end :: post /\
    issued w' =
      issued w ++
      [ UpdateGoogleTask taskId taskListId' name' dueDate (accessToken (self w));
        UpdateFirebaseTaskData (userEmail (self w)) taskId' name'
          priority' estTimeToComplete' timeSpent' false dueDate ].
Proof.
  intros Harr Hid Hpre.
  destruct (toISOString isoString dueDate) as [iso|e] eqn:Hiso; eexists; split.
  - unfold updateTask. unfold bind at 1. unfold this at 1.
    unfold bind at 1. unfold emit at 1. unfold bind at 1. cbn [await].
    unfold ret at 1. unfold bind at 1. unfold emit at 1. unfold bind at 1.
    erewrite findTask_present; [|exact Harr|exact Hid|exact Hpre].
    unfold bind at 1. erewrite assign_middle by exact Harr.
    unfold set_taskArray at 1. unfold bind at 1. unfold lift at 1.
    rewrite Hiso.
    unfold bind at 1. erewrite assign_middle by reflexivity.
    unfold set_taskArray at 1.
    unfold bind at 1. erewrite assign_middle by reflexivity.
    unfold set_taskArray at 1.
    unfold bind at 1. erewrite assign_middle by reflexivity.
    unfold set_taskArray at 1.
    erewrite assign_middle by reflexivity.
    unfold set_taskArray at 1. reflexivity.
  - cbn. split; [done|]. by rewrite <- app_assoc.
  - unfold updateTask. unfold bind at 1. unfold this at 1.
    unfold bind at 1. unfold emit at 1. unfold bind at 1. cbn [await].
    unfold ret at 1. unfold bind at 1. unfold emit at 1. unfold bind at 1.
    erewrite findTask_present; [|exact Harr|exact Hid|exact Hpre].
    unfold bind at 1. erewrite assign_middle by exact Harr.
    unfold set_taskArray at 1. unfold bind at 1. unfold lift at 1.
    rewrite Hiso. reflexivity.
  - cbn. split; [done|]. by rewrite <- app_assoc.
Qed.

(** X13. When the id that comes back from [updateGoogleTask] is in no
    record, [updateTask] fails at the first assignment with a TypeError: the
    records are all as they were, but both remote updates were issued
    before, the Firestore one under the returned id. *)
Theorem updateTask_unknown_id isoString taskId' taskId taskListId' name' dueDate
    priority' estTimeToComplete' timeSpent' w :
  taskId' ∉ ids (taskArray (self w)) ->
  exists w',
    updateTask isoString (Resolved taskId') taskId taskListId' name' dueDate
      priority' estTimeToComplete' timeSpent' w = (Throw TypeError, w') /\
    self w' = self w /\
    issued w' =
      issued w ++
      [ UpdateGoogleTask taskId taskListId' name' dueDate (accessToken (self w));
        UpdateFirebaseTaskData (userEmail (self w)) taskId' name'
          priority' estTimeToComplete' timeSpent' false dueDate;
        ConsoleLog "Error: Did not find task" ].
Proof.
  intros Habs. eexists. split; [by apply updateTask_absent|].
  cbn [self issued]. split; [done|]. by rewrite <- !app_assoc.
Qed.

Lemma updateTask_unknown_id_witness :
  exists w',
    updateTask Sample.iso (Resolved "t7") "t1" "L1" "mist the fern"
      (JDate 1649235600000) (JStr "low") (JNum 2) (JNum 1) Sample2.w4
      = (Throw TypeError, w') /\
    taskArray (self w') = [Sample.fern'; Sample2.ficus'].
Proof.
  destruct (updateTask_unknown_id Sample.iso "t7" "t1" "L1" "mist the fern"
              (JDate 1649235600000) (JStr "low") (JNum 2) (JNum 1) Sample2.w4)
    as (w' & Hrun & Hself & _).
  - apply (bool_decide_unpack _). vm_compute. exact I.
  - exists w'. split; [exact Hrun|]. rewrite Hself. reflexivity.
Defined.

(** X14. [updateTask] is not all-or-nothing.  When [dueDate.toISOString()]
    throws (an invalid Date, or a due date that is not a Date), the method
    throws that error after the two remote updates were issued and after the
    name of the record was overwritten; the other fields of the record are
    as they were. *)
Theorem updateTask_stops_after_name isoString taskId' taskId taskListId' name'
    dueDate priority' estTimeToComplete' timeSpent' e w :
  taskId' ∈ ids (taskArray (self w)) ->
  toISOString isoString dueDate = Throw e ->
  exists pre tk post w',
    taskArray (self w) = pre ++ tk :: post /\
    id tk = taskId' /\ (taskId' ∉ ids pre) /\
    updateTask isoString (Resolved taskId') taskId taskListId' name' dueDate
      priority' estTimeToComplete' timeSpent' w = (Throw e, w') /\
    taskArray (self w') =
      pre ++
      {| name := name'; id := id tk; taskListId := taskListId tk;
         dueDay := dueDay tk; priority := priority tk;
         estTimeToComplete := estTimeToComplete tk;
         timeSpent := timeSpent tk;
         dueDateAndTime := dueDateAndTime tk |} :: post /\
    issued w' =
      issued w ++
      [ UpdateGoogleTask taskId taskListId' name' dueDate (accessToken (self w));
        UpdateFirebaseTaskData (userEmail (self w)) taskId' name'
          priority' estTimeToComplete' timeSpent' false dueDate ].
Proof.
  intros Hin Hiso.
  destruct (scan_present taskId' _ Hin) as (pre & tk & post & Harr & Hid & Hpre).
  destruct (updateTask_run isoString taskId' taskId taskListId' name' dueDate
              priority' estTimeToComplete' timeSpent' pre tk post w Harr Hid Hpre)
    as (w' & Hrun & Harr' & Hissued).
  rewrite Hiso in Hrun, Harr'.
  exists pre, tk, post, w'. done.
Qed.

Lemma updateTask_stops_after_name_witness :
  exists w',
    updateTask Sample.iso (Resolved "t1") "t1" "L1" "mist the fern"
      (JDate nan) (JStr "low") (JNum 2) (JNum 1) Sample.w2
      = (Throw RangeError, w') /\
    taskArray (self w') =
      [ {| name := "mist the fern"; id := "t1"; taskListId := "L1";
           dueDay := None; priority := JStr "high";
           estTimeToComplete := JNum 10; timeSpent := JNum 4;
           dueDateAndTime := JStr "2022-04-05T17:23:42" |} ].
Proof.
  destruct (updateTask_stops_after_name Sample.iso "t1" "t1" "L1" "mist the fern"
              (JDate nan) (JStr "low") (JNum 2) (JNum 1) RangeError Sample.w2)
    as (pre & tk & post & w' & Harr & _ & _ & Hrun & Harr' & _).
  - apply list_elem_of_In. left. reflexivity.
  - reflexivity.
  - exists w'. split; [exact Hrun|].
    change (taskArray (self Sample.w2)) with [Sample.fern'] in Harr.
    destruct pre as [|x pre].
    + injection Harr as <- <-. exact Harr'.
    + destruct pre; discriminate Harr.
Defined.

(** X15. When the promise of [updateGoogleTask] rejects, [updateTask]
    throws the rejection at the [await]: the only call issued is the update
    request to Google Tasks, Firestore is not written, no error line is
    logged and the object, with its records, is as it was. *)
Theorem updateTask_rejected isoString reason taskId taskListId' name' dueDate
    priority' estTimeToComplete' timeSpent' w :
  exists w',
    updateTask isoString (Rejected reason) taskId taskListId' name' dueDate
      priority' estTimeToComplete' timeSpent' w = (Throw (Rejection reason), w') /\
    self w' = self w /\
    issued w' =
      issued w ++
      [UpdateGoogleTask taskId taskListId' name' dueDate (accessToken (self w))] /\
    filter is_firestore_write (issued w') = filter is_firestore_write (issued w).
Proof.
  eexists. split; [reflexivity|]. cbn [self issued].
  split; [done|]. split; [done|].
  rewrite filter_app, filter_cons_False, filter_nil, app_nil_r; [done|].
  simpl. tauto.
Qed.

(** X16. Updating twice with the same values is the same as updating once:
    when the service returns the same id both times, the second call finds
    the same record and leaves the collection as the first call left it. *)
Theorem updateTask_idempotent isoString taskId' taskId taskListId' name' tv
    priority' estTimeToComplete' timeSpent' w :
  taskId' ∈ ids (taskArray (self w)) ->
  PrimFloat.is_nan tv = false ->
  exists w1 w2,
    updateTask isoString (Resolved taskId') taskId taskListId' name' (JDate tv)
      priority' estTimeToComplete' timeSpent' w = (Return tt, w1) /\
    updateTask isoString (Resolved taskId') taskId taskListId' name' (JDate tv)
      priority' estTimeToComplete' timeSpent' w1 = (Return tt, w2) /\
    taskArray (self w2) = taskArray (self w1).
Proof.
  intros Hin Hnan.
  destruct (scan_present taskId' _ Hin) as (pre & tk & post & Harr & Hid & Hpre).
  destruct (updateTask_run isoString taskId' taskId taskListId' name' (JDate tv)
              priority' estTimeToComplete' timeSpent' pre tk post w Harr Hid Hpre)
    as (w1 & Hrun1 & Harr1 & _).
  cbn [toISOString] in Hrun1, Harr1. rewrite Hnan in Hrun1, Harr1.
  destruct (updateTask_run isoString taskId' taskId taskListId' name' (JDate tv)
              priority' estTimeToComplete' timeSpent' pre _ post w1 Harr1 Hid Hpre)
    as (w2 & Hrun2 & Harr2 & _).
  cbn [toISOString] in Hrun2, Harr2. rewrite Hnan in Hrun2, Harr2.
  cbn [name id taskListId dueDay] in Harr2.
  exists w1, w2. split; [exact Hrun1|]. split; [exact Hrun2|].
  by rewrite Harr2, Harr1.
Qed.

Lemma updateTask_idempotent_witness :
  exists w1 w2,
    updateTask Sample.iso (Resolved "t1") "t1" "L1" "mist the fern"
      (JDate 1649235600000) (JStr "low") (JNum 2) (JNum 1) Sample2.w4
      = (Return tt, w1) /\
    updateTask Sample.iso (Resolved "t1") "t1" "L1" "mist the fern"
      (JDate 1649235600000) (JStr "low") (JNum 2) (JNum 1) w1
      = (Return tt, w2) /\
    taskArray (self w2) = taskArray (self w1).
Proof.
  apply (updateTask_idempotent Sample.iso "t1" "t1" "L1" "mist the fern"
           1649235600000 (JStr "low") (JNum 2) (JNum 1) Sample2.w4).
  - apply list_elem_of_In. left. reflexivity.
  - reflexivity.
Defined.

(** ** The fields that no method writes *)

Lemma same_session_refl o : same_session o o.
Proof. by repeat split. Qed.

Lemma same_session_trans o1 o2 o3 :
  same_session o1 o2 -> same_session o2 o3 -> same_session o1 o3.
Proof. intros (H1 & H2 & H3) (H4 & H5 & H6). repeat split; congruence. Qed.

Lemma keeps_session_bind {A B : Type} (m : M A) (k : A -> M B) :
  keeps_session m -> (forall a, keeps_session (k a)) -> keeps_session (bind m k).
Proof.
  intros Hm Hk w c w'. unfold bind.
  destruct (m w) as [[a|e] w1] eqn:E; intros H.
  - apply Hk in H. apply Hm in E. by eapply same_session_trans.
  - injection H as <- <-. by apply Hm in E.
Qed.

Lemma keeps_session_ret {A : Type} (a : A) : keeps_session (ret a).
Proof. intros w c w' [= <- <-]. apply same_session_refl. Qed.

Lemma keeps_session_throw {A : Type} e : keeps_session (@throw A e).
Proof. intros w c w' [= <- <-]. apply same_session_refl. Qed.

Lemma keeps_session_this : keeps_session this.
Proof. intros w c w' [= <- <-]. apply same_session_refl. Qed.

Lemma keeps_session_emit c : keeps_session (emit c).
Proof. intros w c' w' [= <- <-]. apply same_session_refl. Qed.

Lemma keeps_session_await {A : Type} (p : settled A) : keeps_session (await p).
Proof. destruct p; [apply keeps_session_ret | apply keeps_session_throw]. Qed.

Lemma keeps_session_lift {A : Type} (c : completion A) : keeps_session (lift c).
Proof. intros w c' w' [= <- <-]. apply same_session_refl. Qed.

Lemma keeps_session_set_taskArray arr : keeps_session (set_taskArray arr).
Proof. intros w c w' [= <- <-]. by repeat split. Qed.

Ltac keeps_session_step :=
  first
    [ apply keeps_session_this | apply keeps_session_emit
    | apply keeps_session_await | apply keeps_session_lift
    | apply keeps_session_ret | apply keeps_session_throw
    | apply keeps_session_set_taskArray
    | apply keeps_session_bind; [|intros ?] ].

Lemma keeps_session_fetch_items {A : Type} url (r : G.response A) :
  keeps_session (fetch_items url r).
Proof.
  unfold fetch_items.
  apply keeps_session_bind; [apply keeps_session_this | intros o].
  apply keeps_session_bind; [apply keeps_session_emit | intros _].
  destruct r as [reason|[items|]]; repeat keeps_session_step.
Qed.

Lemma keeps_session_lists_loop g (items : list G.tasklist) acc :
  keeps_session (lists_loop g items acc).
Proof.
  revert acc. induction items as [|l items IH]; intros acc; cbn [lists_loop].
  - apply keeps_session_ret.
  - apply keeps_session_bind; [apply keeps_session_fetch_items | intros; apply IH].
Qed.

Lemma keeps_session_init_loop email (arr : list task) :
  keeps_session (init_loop email arr).
Proof.
  induction arr as [|tk arr IH]; cbn [init_loop].
  - apply keeps_session_ret.
  - apply keeps_session_bind; [apply keeps_session_emit | intros; apply IH].
Qed.

Lemma keeps_session_merge_loop fb fuel i : keeps_session (merge_loop fb fuel i).
Proof.
  revert i. induction fuel as [|fuel IH]; intros i; cbn [merge_loop].
  - apply keeps_session_ret.
  - apply keeps_session_bind; [apply keeps_session_this | intros o].
    destruct (taskArray o !! i); [|apply keeps_session_ret].
    apply keeps_session_bind; [apply keeps_session_emit | intros _].
    apply keeps_session_bind; [apply keeps_session_await | intros thisTask].
    apply keeps_session_bind; [apply keeps_session_lift | intros tk'].
    apply keeps_session_bind; [apply keeps_session_set_taskArray | intros _].
    apply IH.
Qed.

Lemma keeps_session_findTask taskId : keeps_session (findTask taskId).
Proof.
  unfold findTask.
  apply keeps_session_bind; [apply keeps_session_this | intros o].
  destruct (scan taskId (taskArray o) 0); repeat keeps_session_step.
Qed.

Lemma keeps_session_assign i f : keeps_session (assign i f).
Proof.
  unfold assign.
  apply keeps_session_bind; [apply keeps_session_this | intros o].
  destruct (i ≫= _); keeps_session_step.
Qed.

(** X17. No method writes [accessToken], [userEmail] or [initiated]:
    however a call of [getGoogleData], [getFirebaseData], [initiate],
    [createTask], [findTask], [updateTask], [completeTask] or [getData]
    ends, these three fields are as before.  In particular [initiated],
    which the constructor sets to false, is still false after [initiate]. *)
Theorem session_fields_kept :
  (forall g, keeps_session (getGoogleData g)) /\
  (forall fb, keeps_session (getFirebaseData fb)) /\
  (forall g fb, keeps_session (initiate g fb)) /\
  (forall reply name' dueDate priority' estTimeToComplete',
     keeps_session (createTask reply name' dueDate priority' estTimeToComplete')) /\
  (forall taskId, keeps_session (findTask taskId)) /\
  (forall isoString reply taskId taskListId' name' dueDate priority'
          estTimeToComplete' timeSpent',
     keeps_session (updateTask isoString reply taskId taskListId' name' dueDate
                      priority' estTimeToComplete' timeSpent')) /\
  (forall taskId, keeps_session (completeTask taskId)) /\
  keeps_session getData /\
  (forall accessToken' userEmail' g fb c w',
     initiate g fb {| self := new accessToken' userEmail'; issued := [] |} = (c, w') ->
     initiated (self w') = false).
Proof.
  assert (forall g, keeps_session (getGoogleData g)) as Hgoogle.
  { intros g. unfold getGoogleData.
    apply keeps_session_bind; [apply keeps_session_fetch_items | intros ls].
    apply keeps_session_bind; [apply keeps_session_lists_loop | intros acc].
    apply keeps_session_set_taskArray. }
  assert (forall fb, keeps_session (getFirebaseData fb)) as Hfirebase.
  { intros fb. unfold getFirebaseData.
    apply keeps_session_bind; [apply keeps_session_this | intros o].
    apply keeps_session_bind; [apply keeps_session_init_loop | intros _].
    apply keeps_session_merge_loop. }
  assert (forall g fb, keeps_session (initiate g fb)) as Hinitiate.
  { intros g fb. unfold initiate.
    apply keeps_session_bind; [apply Hgoogle | intros _].
    apply keeps_session_bind; [apply Hfirebase | intros _].
    repeat keeps_session_step. }
  split; [exact Hgoogle|]. split; [exact Hfirebase|]. split; [exact Hinitiate|].
  split; [|split; [|split; [|split; [|split]]]].
  - intros. unfold createTask. repeat keeps_session_step.
  - apply keeps_session_findTask.
  - intros. unfold updateTask.
    repeat first [ apply keeps_session_findTask | apply keeps_session_assign
                 | keeps_session_step ].
  - intros. unfold completeTask.
    repeat first [ apply keeps_session_findTask | keeps_session_step ].
  - unfold getData. repeat keeps_session_step.
  - intros accessToken' userEmail' g fb c w' Hrun.
    apply Hinitiate in Hrun as (_ & _ & ->). reflexivity.
Qed.

Lemma session_fields_kept_witness :
  initiated (self (initiate Sample.google Sample.firestore Sample.w0).2) = false /\
  accessToken (self (completeTask "t1" Sample.w2).2) = "token".
Proof.
  destruct session_fields_kept as (_ & _ & _ & _ & _ & _ & Hc & _ & Hi).
  split.
  - exact (Hi "token" "ada@example.org" Sample.google Sample.firestore
              (initiate Sample.google Sample.firestore Sample.w0).1
              (initiate Sample.google Sample.firestore Sample.w0).2 eq_refl).
  - exact (proj1 (Hc "t1" Sample.w2 (completeTask "t1" Sample.w2).1
                    (completeTask "t1" Sample.w2).2 eq_refl)).
Defined.

(** ** The date part of the merge *)

Lemma substring_prefix (a b : string) :
  substring 0 (String.length a) (a +:+ b) = a.
Proof. induction a as [|c a IH]; simpl; [by destruct b | by rewrite IH]. Qed.

Lemma substring_short (n : nat) (s : string) :
  String.length s <= n -> substring 0 n s = s.
Proof.
  revert n. induction s as [|c s IH]; intros n Hlen; simpl.
  - by destruct n.
  - destruct n as [|n]; simpl in *; [lia|]. rewrite IH by lia. done.
Qed.

(** X20. What the merge keeps of the due day, when the document has a time
    of day: of a due day of more than ten characters, such as the timestamp
    Google Tasks sends, only the first ten, so that the time in it is
    replaced by the time of the document; a due day of at most ten
    characters is kept whole. *)
Theorem merge_keeps_date tk doc time :
  Fb.dueTime doc = Some time -> time <> "" ->
  (forall date rest,
     dueDay tk = Some (date +:+ rest) -> String.length date = 10 ->
     exists tk', merge tk (Some doc) = Return tk' /\
                 dueDateAndTime tk' = JStr (date +:+ time)) /\
  (forall day,
     dueDay tk = Some day -> String.length day <= 10 ->
     exists tk', merge tk (Some doc) = Return tk' /\
                 dueDateAndTime tk' = JStr (day +:+ time)).
Proof.
  intros Htime Hne.
  assert (truthy (Fb.dueTime doc) = true) as Ht.
  { rewrite Htime. destruct time; [done | reflexivity]. }
  split.
  - intros date rest Hday Hlen. unfold merge. rewrite Ht, Hday, Htime.
    eexists. split; [reflexivity|]. cbn [dueDateAndTime default].
    by rewrite <- Hlen, substring_prefix.
  - intros day Hday Hlen. unfold merge. rewrite Ht, Hday, Htime.
    eexists. split; [reflexivity|]. cbn [dueDateAndTime default].
    by rewrite substring_short.
Qed.

Lemma merge_keeps_date_witness :
  exists tk',
    merge (newTask "L1" Sample.water) (Some Sample2.doc_t1) = Return tk' /\
    dueDateAndTime tk' = JStr "2022-04-05T17:23:42".
Proof.
  destruct (merge_keeps_date (newTask "L1" Sample.water) Sample2.doc_t1
              "T17:23:42" eq_refl ltac:(discriminate)) as [Hlong _].
  exact (Hlong "2022-04-05" "T00:00:00.000Z" eq_refl eq_refl).
Defined.

(** X21. [initiate] is not all-or-nothing either.  When Google Tasks
    answers and the loop of [getFirebaseData] stops at some open task (see
    X4), [initiate] throws, and [taskArray] no longer holds the former
    collection: it holds the records of the open tasks, enriched up to that
    task and partial from it on. *)
Theorem initiate_stops_midway g fb w pre tk post :
  answered g ->
  open_records g = pre ++ tk :: post ->
  Forall (readable fb) pre -> ~ readable fb tk ->
  exists e pre' w',
    initiate g fb w = (Throw e, w') /\
    taskArray (self w') = pre' ++ tk :: post /\
    Forall2 (enriched fb) pre pre'.
Proof.
  intros Hans Hopen Hpre Htk.
  destruct (getGoogleData_answered g w Hans) as (w1 & Hrun1 & Harr1).
  rewrite Hopen in Harr1.
  assert (exists e pre' w',
            getFirebaseData fb w1 = (Throw e, w') /\
            taskArray (self w') = pre' ++ tk :: post /\
            Forall2 (enriched fb) pre pre') as (e & pre' & w' & Hrun2 & Harr2 & Hall).
  { unfold getFirebaseData. unfold bind at 1. unfold this at 1. unfold bind at 1.
    destruct (init_loop_self (userEmail (self w1)) (taskArray (self w1)) w1)
      as (w2 & -> & Hw2).
    rewrite Harr1.
    apply (merge_loop_stops fb pre _ [] tk post w2); [| done | done |].
    - by rewrite Hw2.
    - rewrite length_app. simpl. lia. }
  exists e, pre', w'. split; [|done].
  unfold initiate. unfold bind at 1. rewrite Hrun1.
  unfold bind at 1. rewrite Hrun2. reflexivity.
Qed.

Lemma initiate_stops_midway_witness :
  exists e w',
    initiate Sample.google (fun _ => Rejected "unavailable") Sample.w2 = (Throw e, w') /\
    taskArray (self w') = [newTask "L1" Sample.water].
Proof.
  destruct (initiate_stops_midway Sample.google (fun _ => Rejected "unavailable")
              Sample.w2 [] (newTask "L1" Sample.water) [])
    as (e & pre' & w' & Hrun & Harr & Hall).
  - exists [ {| G.list_id := "L1" |} ]. split; [reflexivity|].
    intros l _. eexists. reflexivity.
  - reflexivity.
  - constructor.
  - intros (d & Hd & _). discriminate Hd.
  - exists e, w'. split; [exact Hrun|].
    apply Forall2_nil_inv_l in Hall as ->. exact Harr.
Defined.

End TaskDataMore.

(** * Further properties of the task viewer *)

Module ViewTaskModalMore.
Import ViewTaskModal ViewTaskModalProofs.
Local Open Scope float_scope.

Lemma is_nan_eq x : PrimFloat.is_nan x = true -> x = nan.
Proof.
  unfold PrimFloat.is_nan. rewrite FloatAxioms.eqb_spec. unfold SFeqb.
  destruct (Prim2SF x) as [s|s| |s m e] eqn:E; simpl.
  - discriminate.
  - destruct s; discriminate.
  - intros _. apply Prim2SF_inj. rewrite E. reflexivity.
  - destruct s; rewrite Z.compare_refl, Pcompare_refl; discriminate.
Qed.

Lemma sub_nan_l y : nan - y = nan.
Proof. apply Prim2SF_inj. rewrite sub_spec. reflexivity. Qed.

Lemma sub_nan_r x : x - nan = nan.
Proof.
  apply Prim2SF_inj. rewrite sub_spec.
  destruct (Prim2SF x) as [s|s| |s m e]; reflexivity.
Qed.

Lemma add_nan_l y : nan + y = nan.
Proof. apply Prim2SF_inj. rewrite add_spec. reflexivity. Qed.

Lemma add_nan_r x : x + nan = nan.
Proof.
  apply Prim2SF_inj. rewrite add_spec.
  destruct (Prim2SF x) as [s|s| |s m e]; reflexivity.
Qed.

(** Adding [0] changes at most the sign of a zero. *)
Lemma add_zero_r x : x + 0 = x \/ (x = -0 /\ x + 0 = 0).
Proof.
  destruct (Prim2SF x) as [s|s| |s m e] eqn:E.
  - destruct s.
    + right. split; apply Prim2SF_inj; rewrite ?add_spec, E; reflexivity.
    + left. apply Prim2SF_inj. rewrite add_spec, E. reflexivity.
  - left. apply Prim2SF_inj. rewrite add_spec, E. reflexivity.
  - left. apply Prim2SF_inj. rewrite add_spec, E. reflexivity.
  - left. apply Prim2SF_inj. rewrite add_spec, E. reflexivity.
Qed.

(** X18. A time that does not parse is not clamped: when the estimate, the
    task's time spent or the time entered parses to NaN, the time left
    shown after [addTimeSpent] is NaN, not 0.  This is the case of every
    task [render] shows no time line and no input box for, those whose
    estimate is null or undefined. *)
Theorem addTimeSpent_nan parse p st :
  (PrimFloat.is_nan (parseFloat parse (estTimeToComplete (task_of p))) = true \/
   PrimFloat.is_nan (parseFloat parse (timeSpent (task_of p))) = true \/
   PrimFloat.is_nan (parseFloat parse (inputTimeSpent st)) = true ->
   displayTimeLeft (addTimeSpent parse p st).1 = JNum nan) /\
  (dispTime (task_of p) = false ->
   displayTimeLeft (addTimeSpent parse p st).1 = JNum nan).
Proof.
  assert (PrimFloat.is_nan (parseFloat parse (estTimeToComplete (task_of p))) = true \/
          PrimFloat.is_nan (parseFloat parse (timeSpent (task_of p))) = true \/
          PrimFloat.is_nan (parseFloat parse (inputTimeSpent st)) = true ->
          displayTimeLeft (addTimeSpent parse p st).1 = JNum nan) as Hnan.
  { intros H. unfold addTimeSpent. cbn [fst displayTimeLeft]. f_equal.
    assert (parseFloat parse (estTimeToComplete (task_of p)) -
            parseFloat parse
              (JNum (parseFloat parse (timeSpent (task_of p)) +
                     parseFloat parse (inputTimeSpent st))) = nan) as ->;
      [|reflexivity].
    destruct H as [H|[H|H]]; apply is_nan_eq in H; rewrite H.
    - apply sub_nan_l.
    - rewrite add_nan_l. apply sub_nan_r.
    - rewrite add_nan_r. apply sub_nan_r. }
  split; [exact Hnan|].
  intros Hd. apply Hnan. left. unfold dispTime in Hd.
  destruct (estTimeToComplete (task_of p)); try discriminate; reflexivity.
Qed.

Lemma addTimeSpent_nan_witness :
  displayTimeLeft
    (addTimeSpent (fun _ => nan)
       {| task_of := {| id := "t2"; estTimeToComplete := JNull;
                        timeSpent := JNum 0; timeLeft := JUndefined |};
          userEmail := "ada@example.org" |}
       {| completeTaskAnimationTime := 300; inputTimeSpent := JNum 2;
          displayTimeSpent := JNum 0; displayTimeLeft := JUndefined |}).1
  = JNum nan.
Proof.
  apply (proj2 (addTimeSpent_nan (fun _ => nan)
       {| task_of := {| id := "t2"; estTimeToComplete := JNull;
                        timeSpent := JNum 0; timeLeft := JUndefined |};
          userEmail := "ada@example.org" |}
       {| completeTaskAnimationTime := 300; inputTimeSpent := JNum 2;
          displayTimeSpent := JNum 0; displayTimeLeft := JUndefined |})).
  reflexivity.
Defined.

(** X19. Times entered do not add up.  [addTimeSpent] starts from the time
    spent of the task it was opened with, not from the time it shows: after
    a first submit, a second submit of the text [time] shows and sends to
    Firestore the task's time spent plus [time] alone; and a second submit
    with the input left as the first one cleared it shows and sends the
    task's time spent again (the same number, when it is one), so that the
    first entry is overwritten. *)
Theorem addTimeSpent_not_cumulative parse p st time :
  let spent := parseFloat parse (timeSpent (task_of p)) in
  let st1 := (addTimeSpent parse p st).1 in
  (displayTimeSpent (addTimeSpent parse p (onChangeText time st1)).1 =
     JNum (spent + parse time) /\
   (addTimeSpent parse p (onChangeText time st1)).2 =
     [UpdateTimeSpentInFirebase (userEmail p) (id (task_of p)) (spent + parse time)]) /\
  (displayTimeSpent (addTimeSpent parse p st1).1 = JNum (spent + 0) /\
   (addTimeSpent parse p st1).2 =
     [UpdateTimeSpentInFirebase (userEmail p) (id (task_of p)) (spent + 0)] /\
   (PrimFloat.is_nan spent = false -> (spent + 0 =? spent) = true)).
Proof.
  intros spent st1. split; [split; reflexivity|].
  split; [reflexivity|]. split; [reflexivity|].
  intros Hnum. destruct (add_zero_r spent) as [-> | [-> ->]]; [|reflexivity].
  unfold PrimFloat.is_nan in Hnum. by destruct (spent =? spent).
Qed.

Lemma addTimeSpent_not_cumulative_witness :
  displayTimeSpent
    (addTimeSpent (fun _ => 3)
       {| task_of := {| id := "t1"; estTimeToComplete := JNum 10;
                        timeSpent := JNum 4; timeLeft := JNum 6 |};
          userEmail := "ada@example.org" |}
       (addTimeSpent (fun _ => 3)
          {| task_of := {| id := "t1"; estTimeToComplete := JNum 10;
                           timeSpent := JNum 4; timeLeft := JNum 6 |};
             userEmail := "ada@example.org" |}
          {| completeTaskAnimationTime := 300; inputTimeSpent := JStr "3";
             displayTimeSpent := JNum 4; displayTimeLeft := JNum 6 |}).1).1
  = JNum 4 /\
  (4 + 0 =? 4) = true.
Proof.
  destruct (addTimeSpent_not_cumulative (fun _ => 3)
       {| task_of := {| id := "t1"; estTimeToComplete := JNum 10;
                        timeSpent := JNum 4; timeLeft := JNum 6 |};
          userEmail := "ada@example.org" |}
       {| completeTaskAnimationTime := 300; inputTimeSpent := JStr "3";
          displayTimeSpent := JNum 4; displayTimeLeft := JNum 6 |} "3")
    as (_ & Hshown & _ & Hsame).
  split; [exact Hshown | exact (Hsame eq_refl)].
Defined.

End ViewTaskModalMore.
